(** * MoinMoin nowiki converter: expansion of [{{{#!...}}}] blocks

    A shallow embedding of [MoinMoin/converter/nowiki.py] (class
    [Converter]: [invalid_args], [handle_nowiki], [recurse], [__call__])
    and the properties of the expansion engine proved over it.

    Python strings are modelled as [string], a character being a code
    point below 256.  The document tree is an EmeraldTree element tree:
    an element owns an ordered list of children, each of which is an
    element, a text run, or (for the second child of a nowiki element) a
    sequence of strings.  The tree has no sharing: every node has one
    parent, so the in-place mutation of the source is modelled by
    rebuilding the element with its new child list. *)

From Stdlib Require Import List String Ascii Bool Arith Lia.
Import ListNotations.
Open Scope string_scope.
Set Warnings "-register-all".

(** ** Python string operations used by the converter *)

Module Py.

(** [unicode.isspace] restricted to code points below 256. *)
Definition isspace (c : ascii) : bool :=
  let n := nat_of_ascii c in
  (((9 <=? n) && (n <=? 13)) || ((28 <=? n) && (n <=? 32))
   || (n =? 133) || (n =? 160))%nat.

(** [s.rstrip()] *)
Fixpoint rstrip (s : string) : string :=
  match s with
  | EmptyString => EmptyString
  | String c s' =>
      match rstrip s' with
      | EmptyString => if isspace c then EmptyString else String c EmptyString
      | r => String c r
      end
  end.

(** [s.startswith(p)] *)
Definition startswith (p s : string) : bool := prefix p s.

(** [s[n:]] *)
Fixpoint drop (n : nat) (s : string) : string :=
  match n, s with
  | O, _ => s
  | S _, EmptyString => EmptyString
  | S k, String _ s' => drop k s'
  end.

Definition cons_head (c : ascii) (l : list string) : list string :=
  match l with
  | h :: t => String c h :: t
  | [] => [String c EmptyString]
  end.

Definition may_split (limit : option nat) : bool :=
  match limit with
  | Some O => false
  | _ => true
  end.

Definition spend (limit : option nat) : option nat :=
  match limit with
  | Some n => Some (pred n)
  | None => None
  end.

(** The scan behind [s.split(sep)] and [s.split(sep, maxsplit)]: left
    to right, non-overlapping occurrences of [sep]; [skip] counts the
    characters of a matched separator still to be passed over. *)
Fixpoint split_scan (sep : string) (skip : nat) (limit : option nat)
         (s : string) : list string :=
  match s with
  | EmptyString => [EmptyString]
  | String c s' =>
      match skip with
      | S k => split_scan sep k limit s'
      | O =>
          if may_split limit && prefix sep s
          then EmptyString :: split_scan sep (pred (String.length sep)) (spend limit) s'
          else cons_head c (split_scan sep 0 limit s')
      end
  end.

(** [s.split(sep)] for a separator that is not empty (Python raises
    ValueError on an empty one; no call site of the converter passes
    one, see [csv_separator_not_empty]). *)
Definition split (sep s : string) : list string :=
  split_scan sep 0 None s.

(** [s.split(sep, maxsplit)] *)
Definition split_max (sep : string) (maxsplit : nat) (s : string) : list string :=
  split_scan sep 0 (Some maxsplit) s.

(** Iterating over a string yields its one-character strings. *)
Fixpoint chars (s : string) : list string :=
  match s with
  | EmptyString => []
  | String c s' => String c EmptyString :: chars s'
  end.

(** [sep.join(items)] *)
Fixpoint join (sep : string) (items : list string) : string :=
  match items with
  | [] => EmptyString
  | [x] => x
  | x :: rest => x ++ sep ++ join sep rest
  end.

(** [s.replace(old, new)] for one-character [old] and [new]. *)
Fixpoint replace_char (old new : ascii) (s : string) : string :=
  match s with
  | EmptyString => EmptyString
  | String c s' =>
      String (if Ascii.eqb c old then new else c) (replace_char old new s')
  end.

Definition field : string := "{arguments}".

(** [template.format(arguments=a)] for a template whose only
    replacement field is [{arguments}]; any other character is copied. *)
Fixpoint format_scan (skip : nat) (template a : string) : string :=
  match template with
  | EmptyString => EmptyString
  | String c t' =>
      match skip with
      | S k => format_scan k t' a
      | O =>
          if prefix field template
          then a ++ format_scan (pred (String.length field)) t' a
          else String c (format_scan 0 t' a)
      end
  end.

Definition format (template a : string) : string := format_scan 0 template a.

(** [needle in hay] *)
Fixpoint contains (needle hay : string) : bool :=
  prefix needle hay ||
  match hay with
  | EmptyString => false
  | String _ h' => contains needle h'
  end.

(** [o or d] for an optional string [o]. *)
Definition or_else (o : option string) (d : string) : string :=
  match o with
  | Some (String c r) => String c r
  | _ => d
  end.

Definition newline : string := String "010"%char EmptyString.

Definition dquote : string := String "034"%char EmptyString.

End Py.

(** ** The document tree *)

(** Element tags of the [moin_page] namespace that the converter names,
    and any other tag. *)
Inductive tag : Type :=
| nowiki | page | div | p | blockcode
| table | table_header | table_row | table_cell
| other_tag (name : string).

Definition is_nowiki (t : tag) : bool :=
  match t with
  | nowiki => true
  | _ => false
  end.

Definition attributes := list (string * string).

(** A child of an element: an element ([ET.Node]), a text run, or a
    sequence of strings. *)
Inductive child : Type :=
| Element (t : tag) (attrib : attributes) (children : list child)
| Text (s : string)
| Seq (items : list string).

(** [isinstance(child, ET.Node)] *)
Definition is_node (c : child) : bool :=
  match c with
  | Element _ _ _ => true
  | _ => false
  end.

(** [moin_page.class_] *)
Definition class_ : string := "class".

(** ** Outcomes: a value, a raised exception, or recursion too deep *)

Inductive exn : Type :=
| ValueError | IndexError | TypeError | AttributeError
| ClassNotFound | SubParserError.

Inductive outcome (A : Type) : Type :=
| Ok (a : A)
| Raised (e : exn)
| OutOfFuel.

Arguments Ok {A} a.
Arguments Raised {A} e.
Arguments OutOfFuel {A}.

Definition bind {A B : Type} (m : outcome A) (k : A -> outcome B) : outcome B :=
  match m with
  | Ok a => k a
  | Raised e => Raised e
  | OutOfFuel => OutOfFuel
  end.

Declare Scope outcome_scope.
Delimit Scope outcome_scope with outcome.
Notation "x <- m ;; k" := (bind m (fun x => k))
  (at level 61, m at next level, right associativity) : outcome_scope.
Notation "' pat <- m ;; k" := (bind m (fun x => match x with pat => k end))
  (at level 61, pat pattern, m at next level, right associativity) : outcome_scope.
Open Scope outcome_scope.

Fixpoint mapM {A B : Type} (f : A -> outcome B) (l : list A) : outcome (list B) :=
  match l with
  | [] => Ok []
  | x :: rest =>
      y <- f x ;;
      ys <- mapM f rest ;;
      Ok (y :: ys)
  end.

Definition of_option {A : Type} (e : exn) (o : option A) : outcome A :=
  match o with
  | Some a => Ok a
  | None => Raised e
  end.

(** ** Collaborators of the converter

    The lexer registry and highlighter (pygments with the tree
    formatter of [pygments_in]), the message catalogue ([_]), the line
    splitter of [_util] and the six embedded-markup converters are not
    part of the converter; it is parametrised over them.  A lookup that
    raises [ClassNotFound] and a converter that raises are [None]. *)

Record Collaborators : Type := {
  lexer : Type;
  get_lexer_by_name : option string -> option lexer;
  get_lexer_for_mimetype : option string -> option lexer;
  (** the children [pygments.highlight(content, lexer, TreeFormatter(),
      blockcode)] writes into [blockcode] *)
  highlight : string -> lexer -> list child;
  gettext : string -> string;
  normalize_split_text : string -> list string;
  (** [moinwiki_converter().parse_block(_Iter(lines), arguments)], the
      arguments being the keyword dictionary *)
  moinwiki_parse_block : list string -> list (string * string) -> option child;
  creole_parse_block : list string -> option string -> option child;
  (** [rst_converter()(content, contenttype=...)] and the like *)
  rst_converter : string -> string -> option child;
  docbook_converter : string -> string -> option child;
  markdown_converter : string -> string -> option child;
  mediawiki_converter : string -> option string -> option child
}.

(** Modelled from the spec: [TableMixin.build_dom_table] is defined in
    [MoinMoin/converter/_table.py], which is not among the sources.  The
    spec (4.4) has it "produce a table node with one header-row subtree
    and N body-row subtrees, tagged with fixed CSS classes"; every cell
    holds the text it was given, no row is padded or cut. *)
Definition build_dom_row (cells : list string) : child :=
  Element table_row [] (map (fun c => Element table_cell [] [Text c]) cells).

Definition build_dom_table (rows : list (list string)) (head : list string)
           (cls : string) : child :=
  Element table [(class_, cls)]
          (Element table_header [] [build_dom_row head] :: map build_dom_row rows).

(** ** The converter *)

Definition legacy_names : list string :=
  ["diff"; "cplusplus"; "python"; "java"; "pascal"; "irc"].

(** [name in (n1, n2, ...)] for a name that may be None. *)
Definition name_in (name : option string) (names : list string) : bool :=
  match name with
  | Some n => existsb (String.eqb n) names
  | None => false
  end.

(** Lines 47-52 of [handle_nowiki]: the directive line, already
    right-trimmed, to [(nowiki_name, nowiki_args_old)]. *)
Definition parse_directive (nowiki_args : string) : option string * option string :=
  if Py.startswith "#!" nowiki_args && (2 <? String.length nowiki_args)%nat
  then
    let arguments := Py.split_max " " 1 (Py.drop 2 nowiki_args) in
    (Some (nth 0 arguments EmptyString),
     if (1 <? List.length arguments)%nat
     then Some (nth 1 arguments EmptyString)
     else None)
  else (None, None).

(** Lines 57-60: old style [{{{#!python] becomes [{{{#!highlight python]. *)
Definition legacy_alias (d : option string * option string)
  : option string * option string :=
  let '(nowiki_name, nowiki_args_old) := d in
  if name_in nowiki_name legacy_names
  then (Some "highlight", nowiki_name)
  else (nowiki_name, nowiki_args_old).

(** [nowiki_args[0]] followed by [.rstrip()]: the second child is
    indexed, and the item found must be a string. *)
Definition directive_line (nowiki_args : child) : outcome string :=
  match nowiki_args with
  | Seq (x :: _) => Ok (Py.rstrip x)
  | Seq [] => Raised IndexError
  | Text (String c _) => Ok (Py.rstrip (String c EmptyString))
  | Text EmptyString => Raised IndexError
  | Element _ _ (Text x :: _) => Ok (Py.rstrip x)
  | Element _ _ (_ :: _) => Raised AttributeError
  | Element _ _ [] => Raised IndexError
  end.

(** Every handler consumes the body as text; a body that is not a text
    run is a type error. *)
Definition as_text (content : child) : outcome string :=
  match content with
  | Text s => Ok s
  | _ => Raised TypeError
  end.

(** Lines 93-95: [Arguments()] with the keyword [class] set when the
    directive carries arguments. *)
Definition wiki_arguments (nowiki_args_old : option string) : list (string * string) :=
  match nowiki_args_old with
  | Some (String c r) => [(class_, Py.replace_char "/" " " (String c r))]
  | _ => []
  end.

Definition message_template : string :=
  "Defaulting to plain text due to invalid arguments: "
    ++ Py.dquote ++ "{arguments}" ++ Py.dquote.

Section Converter.

Variable K : Collaborators.

(** [invalid_args(elem, nowiki_args)]: the message, and the element's
    child list after [elem.append(admonition)]. *)
Definition invalid_args_message (nowiki_args : string) : string :=
  Py.format (gettext K message_template) (Py.join " " (Py.chars nowiki_args)).

Definition admonition (nowiki_args : string) : child :=
  let message := invalid_args_message nowiki_args in
  Element div [(class_, "error")] [Element p [] [Text message]].

Definition invalid_args (elem : list child) (nowiki_args : string) : list child :=
  (elem ++ [admonition nowiki_args])%list.

Definition highlight_block (content : string) (lx : lexer K) : child :=
  Element blockcode [(class_, "highlight")] (highlight K content lx).

(** Lines 62-70: the lexer of a [highlight] directive, with the child
    list of [elem], to which a failed lookup appends the diagnostic. *)
Definition resolve_lexer (elem : list child) (nowiki_args : string)
           (nowiki_name nowiki_args_old : option string)
  : outcome (list child * option (lexer K)) :=
  if name_in nowiki_name ["highlight"] then
    match get_lexer_by_name K nowiki_args_old with
    | Some lx => Ok (elem, Some lx)
    | None =>
        match get_lexer_for_mimetype K nowiki_args_old with
        | Some lx => Ok (elem, Some lx)
        | None =>
            let elem := invalid_args elem nowiki_args in
            lx <- of_option ClassNotFound (get_lexer_by_name K (Some "text")) ;;
            Ok (elem, Some lx)
        end
    end
  else Ok (elem, None).

(** Lines 139-144: the diagnostic, then the body rendered by the
    [text] lexer. *)
Definition plain_text_fallback (elem : list child) (nowiki_args : string)
           (content : child) : outcome (list child) :=
  let elem := invalid_args elem nowiki_args in
  lx <- of_option ClassNotFound (get_lexer_by_name K (Some "text")) ;;
  text <- as_text content ;;
  Ok (elem ++ [highlight_block text lx])%list.

(** [handle_nowiki(elem, page)]: from the children of the nowiki
    element to the children it has when the call returns. *)
Definition handle_nowiki (children : list child) : outcome (list child) :=
  match children with
  | [marker_len; nowiki_args; content] =>
      nowiki_args <- directive_line nowiki_args ;;
      let '(nowiki_name, nowiki_args_old) := parse_directive nowiki_args in
      (* elem.remove_all() *)
      let elem : list child := [] in
      let '(nowiki_name, nowiki_args_old) :=
        legacy_alias (nowiki_name, nowiki_args_old) in
      r <- resolve_lexer elem nowiki_args nowiki_name nowiki_args_old ;;
      let '(elem, lexer) := r in
      match lexer with
      | Some lx =>
          text <- as_text content ;;
          Ok (elem ++ [highlight_block text lx])%list
      | None =>
          if name_in nowiki_name ["csv"; "text/csv"] then
            text <- as_text content ;;
            let sep := Py.or_else nowiki_args_old ";" in
            let content := Py.split Py.newline text in
            let head := Py.split sep (nth 0 content EmptyString) in
            let rows := map (Py.split sep) (tl content) in
            let table := build_dom_table rows head "moin-csv-table moin-sortable" in
            Ok (elem ++ [table])%list
          else if name_in nowiki_name ["wiki"; "text/x.moin.wiki"] then
            text <- as_text content ;;
            let lines := normalize_split_text K text in
            let arguments := wiki_arguments nowiki_args_old in
            body <- of_option SubParserError (moinwiki_parse_block K lines arguments) ;;
            Ok (elem ++ [Element page [] [body]])%list
          else if name_in nowiki_name ["creole"; "text/x.moin.creole"] then
            text <- as_text content ;;
            let lines := normalize_split_text K text in
            body <- of_option SubParserError (creole_parse_block K lines nowiki_args_old) ;;
            Ok (elem ++ [Element page [] [body]])%list
          else if name_in nowiki_name ["rst"; "text/x-rst"] then
            text <- as_text content ;;
            pg <- of_option SubParserError
                    (rst_converter K text "text/x-rst;charset=utf-8") ;;
            Ok (elem ++ [pg])%list
          else if name_in nowiki_name ["docbook"; "application/docbook+xml"] then
            text <- as_text content ;;
            pg <- of_option SubParserError
                    (docbook_converter K text "application/docbook+xml;charset=utf-8") ;;
            Ok (elem ++ [pg])%list
          else if name_in nowiki_name ["markdown"; "text/x-markdown"] then
            text <- as_text content ;;
            pg <- of_option SubParserError
                    (markdown_converter K text "text/x-markdown;charset=utf-8") ;;
            Ok (elem ++ [pg])%list
          else if name_in nowiki_name ["mediawiki"; "text/x-mediawiki"] then
            text <- as_text content ;;
            pg <- of_option SubParserError (mediawiki_converter K text nowiki_args_old) ;;
            Ok (elem ++ [pg])%list
          else plain_text_fallback elem nowiki_args content
      end
  | _ => Raised ValueError
  end.

(** [recurse(elem, page)] driven by the loop of [__call__]: the
    generator yields a nowiki element before it iterates over the
    element's children, and [__call__] runs [handle_nowiki] at the
    yield, so the children visited are those [handle_nowiki] has just
    put in place.  [fuel] bounds the depth of nested generators. *)
Fixpoint recurse (fuel : nat) (elem : child) : outcome child :=
  match fuel with
  | O => OutOfFuel
  | S fuel' =>
      match elem with
      | Element t a children =>
          children <- (if is_nowiki t then handle_nowiki children else Ok children) ;;
          children <- mapM (fun c => if is_node c then recurse fuel' c else Ok c)
                           children ;;
          Ok (Element t a children)
      | _ => Raised AttributeError
      end
  end.

(** [Converter.__call__(tree)], the operation the spec calls [expand]. *)
Definition __call__ (fuel : nat) (tree : child) : outcome child :=
  recurse fuel tree.

(** What the loop of [recurse] does with one child. *)
Definition visit (fuel : nat) (c : child) : outcome child :=
  if is_node c then recurse fuel c else Ok c.

End Converter.

(** ** A concrete set of collaborators

    Small stand-ins on which the converter can be run: a lexer registry
    with the aliases and mimetypes listed below (the legacy name
    [cplusplus] is not among them, C++ being registered as [cpp] and
    [c++]), a highlighter that renders the text as one run, the identity
    message catalogue, and converters that wrap the text in a paragraph.
    The wiki stand-in turns a body of the form [{{{#!directive], lines,
    [}}}] into a nested nowiki element. *)
Module Stub.

Definition aliases : list (string * string) :=
  [("text", "text"); ("python", "python"); ("py", "python");
   ("diff", "diff"); ("java", "java"); ("pascal", "delphi");
   ("irc", "irc"); ("cpp", "cpp"); ("c++", "cpp")].

Definition mimetypes : list (string * string) :=
  [("text/plain", "text"); ("text/x-python", "python");
   ("text/x-diff", "diff"); ("text/x-java", "java");
   ("text/x-c++src", "cpp")].

Fixpoint lookup (k : string) (l : list (string * string)) : option string :=
  match l with
  | [] => None
  | (k', v) :: rest => if String.eqb k k' then Some v else lookup k rest
  end.

Definition by_key (l : list (string * string)) (k : option string) : option string :=
  match k with
  | Some k => lookup k l
  | None => None
  end.

Definition paragraph (text : string) : child :=
  Element page [] [Element p [] [Text text]].

Definition wiki_block (lines : list string) (arguments : list (string * string))
  : option child :=
  match lines with
  | opening :: rest =>
      if Py.startswith "{{{" opening && (3 <? String.length opening)%nat
      then Some (Element (other_tag "body") arguments
                   [Element nowiki []
                      [Text "3"; Seq [Py.drop 3 opening];
                       Text (Py.join Py.newline (removelast rest))]])
      else Some (Element (other_tag "body") arguments
                   [Element p [] [Text (Py.join Py.newline lines)]])
  | [] => Some (Element (other_tag "body") arguments [])
  end.

Definition K : Collaborators := {|
  lexer := string;
  get_lexer_by_name := by_key aliases;
  get_lexer_for_mimetype := by_key mimetypes;
  highlight := fun content _ => [Text content];
  gettext := fun s => s;
  normalize_split_text := Py.split Py.newline;
  moinwiki_parse_block := wiki_block;
  creole_parse_block := fun lines _ => Some (paragraph (Py.join Py.newline lines));
  rst_converter := fun content _ => Some (paragraph content);
  docbook_converter := fun content _ => Some (paragraph content);
  markdown_converter := fun content _ => Some (paragraph content);
  mediawiki_converter := fun content _ => Some (paragraph content)
|}.

(** Collaborators that let down: a registry without any lexer, not
    even [text], and a reStructuredText converter that raises. *)
Definition bare : Collaborators := {|
  lexer := string;
  get_lexer_by_name := fun _ => None;
  get_lexer_for_mimetype := fun _ => None;
  highlight := fun content _ => [Text content];
  gettext := fun s => s;
  normalize_split_text := Py.split Py.newline;
  moinwiki_parse_block := wiki_block;
  creole_parse_block := fun lines _ => Some (paragraph (Py.join Py.newline lines));
  rst_converter := fun _ _ => None;
  docbook_converter := fun content _ => Some (paragraph content);
  markdown_converter := fun content _ => Some (paragraph content);
  mediawiki_converter := fun content _ => Some (paragraph content)
|}.

(** The collaborators of [K] with a wiki converter that emits no nested
    nowiki element. *)
Definition flat : Collaborators := {|
  lexer := string;
  get_lexer_by_name := by_key aliases;
  get_lexer_for_mimetype := by_key mimetypes;
  highlight := fun content _ => [Text content];
  gettext := fun s => s;
  normalize_split_text := Py.split Py.newline;
  moinwiki_parse_block := fun lines _ => Some (paragraph (Py.join Py.newline lines));
  creole_parse_block := fun lines _ => Some (paragraph (Py.join Py.newline lines));
  rst_converter := fun content _ => Some (paragraph content);
  docbook_converter := fun content _ => Some (paragraph content);
  markdown_converter := fun content _ => Some (paragraph content);
  mediawiki_converter := fun content _ => Some (paragraph content)
|}.

End Stub.

(** A well-formed nowiki element: marker, directive line, body. *)
Definition placeholder (directive body : string) : child :=
  Element nowiki [] [Text "3"; Seq [directive]; Text body].

(** A wiki block whose body holds a nested csv block, inside a page. *)
Definition nested_body : string :=
  "{{{#!csv" ++ Py.newline ++ "a;b" ++ Py.newline ++ "1;2" ++ Py.newline ++ "}}}".

Definition nested_page : child :=
  Element page [] [placeholder "#!wiki" nested_body].

(** A page holding a highlight block for a language no lexer knows. *)
Definition unknown_language_page : child :=
  Element page [] [placeholder "#!highlight not-a-real-language" "x"].

(** ** Observations on trees *)

(** The number of elements tagged nowiki that a traversal in the manner
    of [recurse] finds. *)
Fixpoint count_nowiki (c : child) : nat :=
  match c with
  | Element t _ children =>
      (if is_nowiki t then 1 else 0) + list_sum (map count_nowiki children)
  | _ => 0
  end.

(** The depth of nested elements. *)
Fixpoint height (c : child) : nat :=
  match c with
  | Element _ _ children => S (list_max (map height children))
  | _ => 0
  end.

(** No nowiki element of the tree is still in placeholder form: each
    carries the one or two children a handler leaves behind instead of
    the three children (marker, directive, body) [handle_nowiki]
    unpacks. *)
Fixpoint expanded (c : child) : bool :=
  match c with
  | Element t _ children =>
      (if is_nowiki t
       then (List.length children =? 1)%nat || (List.length children =? 2)%nat
       else true)
      && forallb expanded children
  | _ => true
  end.

(** An error admonition, as [invalid_args] builds it. *)
Definition is_diagnostic (c : child) : bool :=
  match c with
  | Element div [(k, v)] _ => String.eqb k class_ && String.eqb v "error"
  | _ => false
  end.

(** The cells of a row and the rows of a table built by
    [build_dom_table]. *)
Definition cell_text (c : child) : string :=
  match c with
  | Element table_cell _ [Text s] => s
  | _ => EmptyString
  end.

Definition row_cells (r : child) : list string :=
  match r with
  | Element table_row _ cells => map cell_text cells
  | _ => []
  end.

Definition table_head (t : child) : list string :=
  match t with
  | Element table _ (Element table_header _ [r] :: _) => row_cells r
  | _ => []
  end.

Definition table_rows (t : child) : list (list string) :=
  match t with
  | Element table _ (Element table_header _ _ :: rows) => map row_cells rows
  | _ => []
  end.

Definition table_class (t : child) : option string :=
  match t with
  | Element table [(k, v)] _ => if String.eqb k class_ then Some v else None
  | _ => None
  end.

(** ** Further observations *)

(** The number of occurrences of a character in a string. *)
Fixpoint occurrences (c : ascii) (s : string) : nat :=
  match s with
  | EmptyString => 0
  | String d r => (if Ascii.eqb d c then 1 else 0) + occurrences c r
  end.

(** A string of white space only. *)
Fixpoint all_space (s : string) : bool :=
  match s with
  | EmptyString => true
  | String c r => Py.isspace c && all_space r
  end.

(** The names [handle_nowiki] compares the format name with once the
    legacy names are rewritten (lines 62-132), a format with its
    mimetype alias in each group. *)
Definition format_groups : list (list string) :=
  [["highlight"];
   ["csv"; "text/csv"];
   ["wiki"; "text/x.moin.wiki"];
   ["creole"; "text/x.moin.creole"];
   ["rst"; "text/x-rst"];
   ["docbook"; "application/docbook+xml"];
   ["markdown"; "text/x-markdown"];
   ["mediawiki"; "text/x-mediawiki"]].

Definition format_names : list string := List.concat format_groups.

(** A nowiki element that the walker reaches, none of its ancestors
    being tagged nowiki, and that does not have three children. *)
Fixpoint blocked (c : child) : bool :=
  match c with
  | Element t _ children =>
      if is_nowiki t
      then negb (List.length children =? 3)%nat
      else existsb blocked children
  | _ => false
  end.

(** Every nowiki element that the walker reaches has the three
    children of a placeholder: a marker, a sequence that is not empty
    and a text body. *)
Fixpoint well_formed (c : child) : bool :=
  match c with
  | Element t _ children =>
      if is_nowiki t
      then match children with
           | [_; Seq (_ :: _); Text _] => true
           | _ => false
           end
      else forallb well_formed children
  | _ => true
  end.

(** A tree without nowiki element and of depth [bound] at most. *)
Definition quiet (bound : nat) (c : child) : Prop :=
  count_nowiki c = 0 /\ height c <= bound.

(** Collaborators that do not fail and whose output is quiet: the
    [text] lexer exists, no converter raises, and neither the
    highlighter nor a converter emits a nowiki element or a tree deeper
    than [bound]. *)
Definition dependable (K : Collaborators) (bound : nat) : Prop :=
  get_lexer_by_name K (Some "text") <> None
  /\ (forall text lx, Forall (quiet bound) (highlight K text lx))
  /\ (forall lines arguments,
         exists sub, moinwiki_parse_block K lines arguments = Some sub /\ quiet bound sub)
  /\ (forall lines args,
         exists sub, creole_parse_block K lines args = Some sub /\ quiet bound sub)
  /\ (forall text contenttype,
         exists pg, rst_converter K text contenttype = Some pg /\ quiet bound pg)
  /\ (forall text contenttype,
         exists pg, docbook_converter K text contenttype = Some pg /\ quiet bound pg)
  /\ (forall text contenttype,
         exists pg, markdown_converter K text contenttype = Some pg /\ quiet bound pg)
  /\ (forall text args,
         exists pg, mediawiki_converter K text args = Some pg /\ quiet bound pg).

(** ** Outcomes and traversals of child lists *)

Lemma bind_Ok {A B : Type} (m : outcome A) (k : A -> outcome B) (b : B) :
  bind m k = Ok b -> exists a, m = Ok a /\ k a = Ok b.
Proof.
  destruct m as [a | e | ]; simpl; intros H; try discriminate.
  exists a; split; [reflexivity | exact H].
Qed.

Lemma mapM_Ok_Forall2 {A B : Type} (f : A -> outcome B) (l : list A) (out : list B) :
  mapM f l = Ok out -> Forall2 (fun x y => f x = Ok y) l out.
Proof.
  revert out; induction l as [| x rest IH]; simpl; intros out H.
  - inversion H; constructor.
  - apply bind_Ok in H as (y & Hy & H).
    apply bind_Ok in H as (ys & Hys & H).
    inversion H; subst; constructor; auto.
Qed.

Lemma Forall2_mapM_Ok {A B : Type} (f : A -> outcome B) (l : list A) (out : list B) :
  Forall2 (fun x y => f x = Ok y) l out -> mapM f l = Ok out.
Proof.
  induction 1 as [| x y l out Hxy _ IH]; simpl; [reflexivity |].
  rewrite Hxy; simpl; rewrite IH; reflexivity.
Qed.

Lemma mapM_fixed {A : Type} (f : A -> outcome A) (l : list A) :
  (forall x, In x l -> f x = Ok x) -> mapM f l = Ok l.
Proof.
  induction l as [| x rest IH]; simpl; intros H; [reflexivity |].
  rewrite (H x (or_introl eq_refl)); simpl.
  rewrite IH by (intros y Hy; apply H; right; exact Hy).
  reflexivity.
Qed.

Lemma mapM_stuck {A B : Type} (f : A -> outcome B) (l : list A) (x : A) :
  In x l -> (forall y, f x <> Ok y) -> forall out, mapM f l <> Ok out.
Proof.
  intros Hin Hx out H.
  apply mapM_Ok_Forall2 in H.
  revert out H; induction l as [| a rest IH]; intros out H; [contradiction |].
  inversion H as [| ? y ? ys Hay Hrest]; subst.
  destruct Hin as [-> | Hin]; [exact (Hx y Hay) | exact (IH Hin ys Hrest)].
Qed.

Lemma list_sum_zero (l : list nat) :
  list_sum l = 0 -> forall n, In n l -> n = 0.
Proof.
  induction l as [| a rest IH]; simpl; intros H n Hn; [contradiction |].
  destruct Hn as [-> | Hn]; [lia | apply IH; [lia | exact Hn]].
Qed.

Lemma list_sum_positive (l : list nat) :
  list_sum l <> 0 -> exists n, In n l /\ n <> 0.
Proof.
  induction l as [| a rest IH]; simpl; intros H; [congruence |].
  destruct a as [| a'].
  - destruct (IH H) as (n & Hn & Hpos); exists n; auto.
  - exists (S a'); split; [left; reflexivity | discriminate].
Qed.

Lemma list_max_bound (l : list nat) (n : nat) :
  In n l -> n <= list_max l.
Proof.
  induction l as [| a rest IH]; simpl; intros H; [contradiction |].
  destruct H as [-> | H]; [lia | specialize (IH H); lia].
Qed.

Lemma list_max_below (l : list nat) (b : nat) :
  (forall n, In n l -> n <= b) -> list_max l <= b.
Proof.
  induction l as [| a rest IH]; simpl; intros H; [lia |].
  assert (a <= b) by (apply H; left; reflexivity).
  assert (list_max rest <= b) by (apply IH; intros n Hn; apply H; right; exact Hn).
  lia.
Qed.

Lemma Forall2_in_r {A B : Type} (R : A -> B -> Prop) (l : list A) (l' : list B) (y : B) :
  Forall2 R l l' -> In y l' -> exists x, In x l /\ R x y.
Proof.
  induction 1 as [| a b l l' Hab _ IH]; simpl; intros Hy; [contradiction |].
  destruct Hy as [-> | Hy].
  - exists a; auto.
  - destruct (IH Hy) as (x & Hx & Hxy); exists x; auto.
Qed.

(** ** The handler and the walker *)

Section Walker.

Variable K : Collaborators.

Lemma resolve_lexer_cases (line : string) (name args : option string)
      (elem : list child) (lx : option (lexer K)) :
  resolve_lexer K [] line name args = Ok (elem, lx) ->
  (lx = None /\ elem = [] /\ name_in name ["highlight"] = false)
  \/ (exists l, lx = Some l /\ name_in name ["highlight"] = true
                /\ (elem = [] \/ elem = [admonition K line])).
Proof.
  unfold resolve_lexer.
  destruct (name_in name ["highlight"]).
  - destruct (get_lexer_by_name K args) as [l |].
    + intros H; inversion H; subst; right; exists l; auto.
    + destruct (get_lexer_for_mimetype K args) as [l |].
      * intros H; inversion H; subst; right; exists l; auto.
      * destruct (get_lexer_by_name K (Some "text")) as [l |]; simpl;
          intros H; inversion H; subst.
        right; exists l; auto.
  - intros H; inversion H; subst; left; auto.
Qed.

Ltac split_outcome H :=
  repeat match type of H with
         | bind ?m _ = Ok _ =>
             let x := fresh "x" in
             let Hx := fresh "Hx" in
             apply bind_Ok in H as (x & Hx & H)
         | (if ?b then _ else _) = Ok _ => destruct b
         | Ok _ = Ok _ => inversion H; subst; clear H
         end.

Lemma handle_nowiki_length (children out : list child) :
  handle_nowiki K children = Ok out ->
  List.length out = 1 \/ List.length out = 2.
Proof.
  unfold handle_nowiki.
  destruct children as [| m [| d [| c [| ? ?]]]]; try discriminate.
  intros H.
  apply bind_Ok in H as (line & _ & H).
  destruct (parse_directive line) as [n0 a0].
  destruct (legacy_alias (n0, a0)) as [n a].
  apply bind_Ok in H as ([elem lx] & Hr & H).
  apply resolve_lexer_cases in Hr
    as [(-> & -> & _) | (l & -> & _ & [-> | ->])].
  - unfold plain_text_fallback in H.
    split_outcome H; unfold invalid_args; simpl; auto.
  - split_outcome H; simpl; auto.
  - split_outcome H; unfold invalid_args; simpl; auto.
Qed.

Lemma handle_nowiki_needs_three (children : list child) :
  List.length children <> 3 -> handle_nowiki K children = Raised ValueError.
Proof.
  destruct children as [| m [| d [| c [| ? ?]]]]; simpl; intros H;
    try reflexivity; congruence.
Qed.

Lemma recurse_step (fuel : nat) (t : tag) (a : attributes) (children : list child) :
  recurse K (S fuel) (Element t a children) =
    (k1 <- (if is_nowiki t then handle_nowiki K children else Ok children) ;;
     k2 <- mapM (visit K fuel) k1 ;;
     Ok (Element t a k2)).
Proof. reflexivity. Qed.

Lemma recurse_Ok_inv (fuel : nat) (tree r : child) :
  recurse K fuel tree = Ok r ->
  exists fuel' t a children k1 k2,
    fuel = S fuel' /\ tree = Element t a children
    /\ (if is_nowiki t then handle_nowiki K children else Ok children) = Ok k1
    /\ Forall2 (fun x y => visit K fuel' x = Ok y) k1 k2
    /\ r = Element t a k2.
Proof.
  destruct fuel as [| fuel']; [discriminate |].
  destruct tree as [t a children | s | items]; try discriminate.
  rewrite recurse_step; intros H.
  apply bind_Ok in H as (k1 & Hk1 & H).
  apply bind_Ok in H as (k2 & Hk2 & H).
  inversion H; subst.
  exists fuel', t, a, children, k1, k2.
  repeat split; auto using mapM_Ok_Forall2.
Qed.

Lemma visit_leaf (fuel : nat) (c y : child) :
  is_node c = false -> visit K fuel c = Ok y -> y = c.
Proof.
  unfold visit; intros ->; congruence.
Qed.

Lemma leaf_expanded (c : child) : is_node c = false -> expanded c = true.
Proof. destruct c; simpl; congruence. Qed.

Lemma leaf_height (c : child) : is_node c = false -> height c = 0.
Proof. destruct c; simpl; congruence. Qed.

Lemma leaf_count (c : child) : is_node c = false -> count_nowiki c = 0.
Proof. destruct c; simpl; congruence. Qed.

(** Whatever the walker returns has every nowiki element expanded. *)
Lemma recurse_expanded (fuel : nat) :
  forall tree r, recurse K fuel tree = Ok r -> expanded r = true.
Proof.
  induction fuel as [| fuel IH]; intros tree r H; [discriminate |].
  apply recurse_Ok_inv in H
    as (f & t & a & children & k1 & k2 & Hf & -> & Hk1 & Hk2 & ->).
  injection Hf as <-.
  simpl; apply andb_true_iff; split.
  - destruct (is_nowiki t); [| reflexivity].
    apply handle_nowiki_length in Hk1.
    apply Forall2_length in Hk2; rewrite <- Hk2.
    destruct Hk1 as [-> | ->]; reflexivity.
  - apply forallb_forall; intros y Hy.
    destruct (Forall2_in_r _ _ _ _ Hk2 Hy) as (x & _ & Hxy).
    destruct (is_node x) eqn:Hx.
    + unfold visit in Hxy; rewrite Hx in Hxy; exact (IH _ _ Hxy).
    + apply (visit_leaf _ _ _ Hx) in Hxy; subst; exact (leaf_expanded _ Hx).
Qed.

(** The result is no deeper than the fuel spent on it. *)
Lemma recurse_height (fuel : nat) :
  forall tree r, recurse K fuel tree = Ok r -> height r <= fuel.
Proof.
  induction fuel as [| fuel IH]; intros tree r H; [discriminate |].
  apply recurse_Ok_inv in H
    as (f & t & a & children & k1 & k2 & Hf & -> & Hk1 & Hk2 & ->).
  injection Hf as <-.
  simpl; apply le_n_S, list_max_below; intros n Hn.
  apply in_map_iff in Hn as (y & <- & Hy).
  destruct (Forall2_in_r _ _ _ _ Hk2 Hy) as (x & _ & Hxy).
  destruct (is_node x) eqn:Hx.
  - unfold visit in Hxy; rewrite Hx in Hxy; exact (IH _ _ Hxy).
  - apply (visit_leaf _ _ _ Hx) in Hxy; subst; rewrite (leaf_height _ Hx); lia.
Qed.

(** A tree without nowiki elements comes back as it is, given fuel
    for its depth. *)
Lemma recurse_fixed (fuel : nat) :
  forall tree, is_node tree = true -> count_nowiki tree = 0 ->
               height tree <= fuel -> recurse K fuel tree = Ok tree.
Proof.
  induction fuel as [| fuel IH]; intros tree Hnode Hcount Hheight.
  - destruct tree; simpl in *; try discriminate; lia.
  - destruct tree as [t a children | |]; try discriminate.
    rewrite recurse_step.
    simpl in Hcount, Hheight.
    destruct (is_nowiki t); [discriminate |]; simpl.
    rewrite mapM_fixed; [reflexivity |].
    intros x Hx; unfold visit.
    destruct (is_node x) eqn:Hnx; [| reflexivity].
    apply IH; [exact Hnx | |].
    + apply (list_sum_zero _ Hcount), in_map, Hx.
    + assert (height x <= list_max (map height children))
        by (apply list_max_bound, in_map, Hx).
      lia.
Qed.

(** A tree that holds an expanded nowiki element cannot be walked
    again: the element no longer unpacks into three children. *)
Lemma recurse_again_stuck (fuel : nat) :
  forall tree, expanded tree = true -> count_nowiki tree <> 0 ->
               forall r, recurse K fuel tree <> Ok r.
Proof.
  induction fuel as [| fuel IH]; intros tree Hexp Hcount r; [discriminate |].
  destruct tree as [t a children | |]; try discriminate.
  rewrite recurse_step.
  simpl in Hexp, Hcount.
  apply andb_true_iff in Hexp as [Hlen Hkids].
  destruct (is_nowiki t).
  - rewrite handle_nowiki_needs_three; [discriminate |].
    apply orb_true_iff in Hlen as [Hlen | Hlen];
      apply Nat.eqb_eq in Hlen; lia.
  - simpl in *.
    destruct (list_sum_positive _ Hcount) as (n & Hn & Hpos).
    apply in_map_iff in Hn as (x & <- & Hx).
    intros H; apply bind_Ok in H as (k2 & Hk2 & _).
    revert Hk2; apply (mapM_stuck _ _ x Hx).
    intros y; unfold visit.
    destruct (is_node x) eqn:Hnx.
    + apply IH; [| exact Hpos].
      rewrite forallb_forall in Hkids; exact (Hkids x Hx).
    + rewrite (leaf_count _ Hnx) in Hpos; congruence.
Qed.

End Walker.

(** ** Splitting the directive line *)

Section Directive.

Lemma prefix_space (c : ascii) (s : string) :
  prefix " " (String c s) = Ascii.eqb c " ".
Proof.
  change (prefix " " (String c s))
    with (if ascii_dec " " c then prefix EmptyString s else false).
  destruct (ascii_dec " " c) as [<- | Hne]; [destruct s; reflexivity |].
  symmetry; apply Ascii.eqb_neq; congruence.
Qed.

Lemma contains_space_cons (c : ascii) (s : string) :
  Py.contains " " (String c s) = Ascii.eqb c " " || Py.contains " " s.
Proof.
  change (Py.contains " " (String c s))
    with (prefix " " (String c s) || Py.contains " " s).
  rewrite prefix_space; reflexivity.
Qed.

(** With no split left, the rest of the string is one item. *)
Lemma split_exhausted (sep s : string) :
  Py.split_scan sep 0 (Some 0) s = [s].
Proof.
  induction s as [| c s IH]; [reflexivity |].
  cbn [Py.split_scan Py.may_split andb]; rewrite IH; reflexivity.
Qed.

Lemma split_once_no_space (s : string) :
  Py.contains " " s = false -> Py.split_max " " 1 s = [s].
Proof.
  unfold Py.split_max.
  induction s as [| c s IH]; [reflexivity |].
  rewrite contains_space_cons; intros H.
  apply orb_false_iff in H as [Hc Hs].
  cbn [Py.split_scan Py.may_split andb].
  rewrite prefix_space, Hc, (IH Hs); reflexivity.
Qed.

Lemma split_once_at_space (name args : string) :
  Py.contains " " name = false ->
  Py.split_max " " 1 (name ++ " " ++ args) = [name; args].
Proof.
  unfold Py.split_max.
  induction name as [| c s IH].
  - intros _.
    change (EmptyString ++ " " ++ args) with (String " " args).
    cbn [Py.split_scan Py.may_split andb].
    rewrite prefix_space.
    change (Ascii.eqb " " " ") with true.
    cbn [Py.spend String.length pred]; rewrite split_exhausted; reflexivity.
  - rewrite contains_space_cons; intros H.
    apply orb_false_iff in H as [Hc Hs].
    change (String c s ++ " " ++ args) with (String c (s ++ " " ++ args)).
    cbn [Py.split_scan Py.may_split andb].
    rewrite prefix_space, Hc, (IH Hs); reflexivity.
Qed.

(** Every string either has no space or splits at its first one. *)
Lemma first_space (s : string) :
  Py.contains " " s = false
  \/ exists name args, s = name ++ " " ++ args /\ Py.contains " " name = false.
Proof.
  induction s as [| c s IH]; [left; reflexivity |].
  rewrite contains_space_cons.
  destruct (Ascii.eqb c " ") eqn:Hc.
  - right; exists EmptyString, s; split; [| reflexivity].
    apply Ascii.eqb_eq in Hc; subst; reflexivity.
  - destruct IH as [Hs | (name & args & -> & Hname)].
    + left; rewrite Hs; reflexivity.
    + right; exists (String c name), args; split; [reflexivity |].
      rewrite contains_space_cons, Hc, Hname; reflexivity.
Qed.

Lemma parse_directive_name_only (line : string) :
  Py.startswith "#!" line = true -> 2 < String.length line ->
  Py.contains " " (Py.drop 2 line) = false ->
  parse_directive line = (Some (Py.drop 2 line), None).
Proof.
  intros Hp Hl Hs; unfold parse_directive.
  apply Nat.ltb_lt in Hl; rewrite Hp, Hl; cbn [andb].
  rewrite (split_once_no_space _ Hs); reflexivity.
Qed.

Lemma parse_directive_name_args (line name args : string) :
  Py.startswith "#!" line = true -> 2 < String.length line ->
  Py.drop 2 line = name ++ " " ++ args -> Py.contains " " name = false ->
  parse_directive line = (Some name, Some args).
Proof.
  intros Hp Hl Hd Hs; unfold parse_directive.
  apply Nat.ltb_lt in Hl; rewrite Hp, Hl, Hd; cbn [andb].
  rewrite (split_once_at_space _ _ Hs); reflexivity.
Qed.

Lemma parse_directive_absent (line : string) :
  ~ (Py.startswith "#!" line = true /\ 2 < String.length line) ->
  parse_directive line = (None, None).
Proof.
  intros H; unfold parse_directive.
  destruct (Py.startswith "#!" line) eqn:Hp; [| reflexivity].
  destruct (2 <? String.length line)%nat eqn:Hl; [| reflexivity].
  apply Nat.ltb_lt in Hl; tauto.
Qed.


Lemma name_in_spec (n : string) (names : list string) :
  name_in (Some n) names = true <-> In n names.
Proof.
  unfold name_in; rewrite existsb_exists; split.
  - intros (x & Hx & Heq); apply String.eqb_eq in Heq; subst; exact Hx.
  - intros H; exists n; split; [exact H | apply String.eqb_refl].
Qed.

End Directive.

(** ** The branches of [handle_nowiki] *)

Section Branches.

Variable K : Collaborators.
Variables (marker content : child) (raw : string).

Lemma handle_nowiki_highlight_resolved (hint : option string) (lx : lexer K) :
  legacy_alias (parse_directive (Py.rstrip raw)) = (Some "highlight", hint) ->
  get_lexer_by_name K hint = Some lx
  \/ (get_lexer_by_name K hint = None /\ get_lexer_for_mimetype K hint = Some lx) ->
  handle_nowiki K [marker; Seq [raw]; content] =
    (text <- as_text content ;; Ok [highlight_block K text lx]).
Proof.
  intros Halias Hlx.
  unfold handle_nowiki, directive_line; cbn [bind].
  destruct (parse_directive (Py.rstrip raw)) as [n0 a0].
  rewrite Halias; unfold resolve_lexer.
  change (name_in (Some "highlight") ["highlight"]) with true; cbv iota.
  destruct Hlx as [-> | [-> ->]]; reflexivity.
Qed.

Lemma handle_nowiki_highlight_unresolved (hint : option string) :
  legacy_alias (parse_directive (Py.rstrip raw)) = (Some "highlight", hint) ->
  get_lexer_by_name K hint = None -> get_lexer_for_mimetype K hint = None ->
  handle_nowiki K [marker; Seq [raw]; content] =
    (lx <- of_option ClassNotFound (get_lexer_by_name K (Some "text")) ;;
     text <- as_text content ;;
     Ok [admonition K (Py.rstrip raw); highlight_block K text lx]).
Proof.
  intros Halias Hname Hmime.
  unfold handle_nowiki, directive_line; cbn [bind].
  destruct (parse_directive (Py.rstrip raw)) as [n0 a0].
  rewrite Halias; unfold resolve_lexer.
  change (name_in (Some "highlight") ["highlight"]) with true; cbv iota.
  rewrite Hname, Hmime.
  destruct (get_lexer_by_name K (Some "text")); reflexivity.
Qed.

Lemma handle_nowiki_absent :
  parse_directive (Py.rstrip raw) = (None, None) ->
  handle_nowiki K [marker; Seq [raw]; content] =
    plain_text_fallback K [] (Py.rstrip raw) content.
Proof.
  intros Hparse.
  unfold handle_nowiki, directive_line; cbn [bind].
  rewrite Hparse; reflexivity.
Qed.

Lemma handle_nowiki_csv (n : string) (args : option string) (body : string) :
  content = Text body ->
  parse_directive (Py.rstrip raw) = (Some n, args) ->
  In n ["csv"; "text/csv"] ->
  handle_nowiki K [marker; Seq [raw]; content] =
    Ok [build_dom_table
          (map (Py.split (Py.or_else args ";")) (tl (Py.split Py.newline body)))
          (Py.split (Py.or_else args ";") (nth 0 (Py.split Py.newline body) EmptyString))
          "moin-csv-table moin-sortable"].
Proof.
  intros -> Hparse Hn.
  unfold handle_nowiki, directive_line; cbn [bind].
  rewrite Hparse.
  destruct Hn as [<- | [<- | []]]; reflexivity.
Qed.

Lemma handle_nowiki_wiki (n : string) (args : option string) (body : string) :
  content = Text body ->
  parse_directive (Py.rstrip raw) = (Some n, args) ->
  In n ["wiki"; "text/x.moin.wiki"] ->
  handle_nowiki K [marker; Seq [raw]; content] =
    (sub <- of_option SubParserError
              (moinwiki_parse_block K (normalize_split_text K body) (wiki_arguments args)) ;;
     Ok [Element page [] [sub]]).
Proof.
  intros -> Hparse Hn.
  unfold handle_nowiki, directive_line; cbn [bind].
  rewrite Hparse.
  destruct Hn as [<- | [<- | []]]; reflexivity.
Qed.

End Branches.

(** ** Tables *)

Lemma list_sum_map_zero {A : Type} (f : A -> nat) (l : list A) :
  (forall x, In x l -> f x = 0) -> list_sum (map f l) = 0.
Proof.
  induction l as [| a rest IH]; simpl; intros H; [reflexivity |].
  rewrite (H a (or_introl eq_refl)), IH; [reflexivity |].
  intros x Hx; apply H; right; exact Hx.
Qed.

Lemma row_cells_build (cells : list string) :
  row_cells (build_dom_row cells) = cells.
Proof.
  unfold build_dom_row; simpl; rewrite map_map; simpl.
  induction cells as [| c rest IH]; simpl; [reflexivity | rewrite IH; reflexivity].
Qed.

Lemma table_rows_build (rows : list (list string)) (head : list string) (cls : string) :
  table_rows (build_dom_table rows head cls) = rows.
Proof.
  unfold build_dom_table; cbn [table_rows]; rewrite map_map.
  induction rows as [| r rest IH]; [reflexivity |].
  cbn [map]; rewrite row_cells_build, IH; reflexivity.
Qed.

Lemma table_head_build (rows : list (list string)) (head : list string) (cls : string) :
  table_head (build_dom_table rows head cls) = head.
Proof.
  unfold build_dom_table; cbn [table_head]; apply row_cells_build.
Qed.

Lemma row_no_nowiki (cells : list string) : count_nowiki (build_dom_row cells) = 0.
Proof.
  unfold build_dom_row; cbn [count_nowiki is_nowiki]; rewrite map_map.
  rewrite list_sum_map_zero; reflexivity.
Qed.

Lemma row_height (cells : list string) : height (build_dom_row cells) <= 2.
Proof.
  unfold build_dom_row; cbn [height]; rewrite map_map.
  apply le_n_S, list_max_below; intros n Hn.
  apply in_map_iff in Hn as (c & <- & _); simpl; lia.
Qed.

Lemma table_no_nowiki (rows : list (list string)) (head : list string) (cls : string) :
  count_nowiki (build_dom_table rows head cls) = 0.
Proof.
  unfold build_dom_table; cbn [count_nowiki is_nowiki].
  rewrite list_sum_map_zero; [reflexivity |].
  intros c [<- | Hc].
  - cbn [count_nowiki is_nowiki map list_sum]; rewrite row_no_nowiki; reflexivity.
  - apply in_map_iff in Hc as (r & <- & _); apply row_no_nowiki.
Qed.

Lemma table_height (rows : list (list string)) (head : list string) (cls : string) :
  height (build_dom_table rows head cls) <= 4.
Proof.
  unfold build_dom_table; cbn [height].
  apply le_n_S, list_max_below; intros n Hn.
  apply in_map_iff in Hn as (c & <- & [<- | Hc]).
  - change (height (Element table_header [] [build_dom_row head]))
      with (S (Nat.max (height (build_dom_row head)) 0)).
    pose proof (row_height head); lia.
  - apply in_map_iff in Hc as (r & <- & _); pose proof (row_height r); lia.
Qed.

(** ** The directive parser *)

(** C7. Given the right-trimmed directive line: when it starts with
    [#!] and has a character after it, the remainder is split at its
    first space into the format name and the format arguments, the
    arguments being absent when there is no space; in every other case
    name and arguments are both absent and [handle_nowiki] takes the
    unknown-format path (the diagnostic and the plain-text block).  The
    parser is a total function: it signals no error. *)
Theorem directive_parser_contract (line : string) :
  (Py.startswith "#!" line = true /\ 2 < String.length line ->
   (Py.contains " " (Py.drop 2 line) = false ->
    parse_directive line = (Some (Py.drop 2 line), None))
   /\ (forall name args,
          Py.drop 2 line = name ++ " " ++ args ->
          Py.contains " " name = false ->
          parse_directive line = (Some name, Some args)))
  /\ (~ (Py.startswith "#!" line = true /\ 2 < String.length line) ->
      parse_directive line = (None, None)
      /\ forall K marker raw content,
          Py.rstrip raw = line ->
          handle_nowiki K [marker; Seq [raw]; content]
          = plain_text_fallback K [] line content).
Proof.
  split.
  - intros [Hp Hl]; split.
    + apply parse_directive_name_only; assumption.
    + intros name args Hd Hs.
      apply (parse_directive_name_args line name args); assumption.
  - intros Hno.
    pose proof (parse_directive_absent line Hno) as Hparse.
    split; [exact Hparse |].
    intros K marker raw content <-.
    apply handle_nowiki_absent; exact Hparse.
Qed.

Lemma directive_parser_contract_witness :
  parse_directive "#!csv" = (Some "csv", None)
  /\ parse_directive "#!highlight python" = (Some "highlight", Some "python")
  /\ parse_directive "#!" = (None, None)
  /\ handle_nowiki Stub.K [Text "3"; Seq ["plain  "]; Text "x"]
     = plain_text_fallback Stub.K [] "plain" (Text "x").
Proof.
  split; [| split; [| split]].
  - apply (proj1 (directive_parser_contract "#!csv")).
    + split; [reflexivity | simpl; lia].
    + reflexivity.
  - apply (proj1 (directive_parser_contract "#!highlight python")).
    + split; [reflexivity | simpl; lia].
    + reflexivity.
    + reflexivity.
  - apply (proj2 (directive_parser_contract "#!")).
    simpl; intros [_ H]; lia.
  - apply (proj2 (directive_parser_contract "plain")).
    + simpl; intros [H _]; discriminate.
    + reflexivity.
Defined.



(** ** The unknown-format diagnostic *)

(** C3, evaluated.  [invalid_args] joins the characters of the directive
    line with spaces, the line being a string by the time it is called:
    for [#!bogus-format] with body [hello] the placeholder receives one
    diagnostic and then the plain-text block holding [hello], but the
    message spells the directive out character by character and does
    not contain the text [#!bogus-format]. *)
Theorem unknown_format_message_is_spaced_out :
  let message :=
    "Defaulting to plain text due to invalid arguments: "
      ++ Py.dquote ++ "# ! b o g u s - f o r m a t" ++ Py.dquote in
  (forall K, invalid_args_message K "#!bogus-format"
             = Py.format (gettext K message_template) "# ! b o g u s - f o r m a t")
  /\ __call__ Stub.K 3 (placeholder "#!bogus-format" "hello")
     = Ok (Element nowiki []
             [Element div [(class_, "error")] [Element p [] [Text message]];
              Element blockcode [(class_, "highlight")] [Text "hello"]])
  /\ Py.contains "#!bogus-format" message = false.
Proof.
  split; [intros K; reflexivity | split; reflexivity].
Qed.

(** ** The table builder *)

Lemma csv_separator_not_empty (args : option string) :
  Py.or_else args ";" <> EmptyString.
Proof.
  destruct args as [[| c r] |]; simpl; discriminate.
Qed.

Lemma csv_placeholder_expands (K : Collaborators) (a : attributes) (marker : child)
      (raw n : string) (args : option string) (body : string) (spare : nat) :
  parse_directive (Py.rstrip raw) = (Some n, args) ->
  In n ["csv"; "text/csv"] ->
  __call__ K (5 + spare) (Element nowiki a [marker; Seq [raw]; Text body])
  = Ok (Element nowiki a
          [build_dom_table
             (map (Py.split (Py.or_else args ";")) (tl (Py.split Py.newline body)))
             (Py.split (Py.or_else args ";") (nth 0 (Py.split Py.newline body) EmptyString))
             "moin-csv-table moin-sortable"]).
Proof.
  intros Hparse Hn.
  unfold __call__.
  change (5 + spare) with (S (4 + spare)).
  rewrite recurse_step; cbn [is_nowiki].
  rewrite (handle_nowiki_csv K marker (Text body) raw n args body eq_refl Hparse Hn).
  cbn [bind mapM]; unfold visit.
  set (tbl := build_dom_table _ _ _).
  change (is_node tbl) with true; cbv iota.
  rewrite recurse_fixed; [reflexivity | reflexivity | apply table_no_nowiki |].
  pose proof (table_height
                (map (Py.split (Py.or_else args ";")) (tl (Py.split Py.newline body)))
                (Py.split (Py.or_else args ";") (nth 0 (Py.split Py.newline body) EmptyString))
                "moin-csv-table moin-sortable").
  subst tbl; lia.
Qed.

(** C8. For format [csv] and body [a;b], [1;2], [3;4] on three lines,
    with no separator argument, the placeholder receives one table with
    the classes [moin-csv-table moin-sortable], header cells [a], [b]
    and the two body rows [1], [2] and [3], [4] in that order. *)
Theorem csv_table_example (K : Collaborators) (spare : nat) :
  exists tbl,
    __call__ K (5 + spare)
             (placeholder "#!csv" ("a;b" ++ Py.newline ++ "1;2" ++ Py.newline ++ "3;4"))
    = Ok (Element nowiki [] [tbl])
    /\ table_class tbl = Some "moin-csv-table moin-sortable"
    /\ table_head tbl = ["a"; "b"]
    /\ table_rows tbl = [["1"; "2"]; ["3"; "4"]].
Proof.
  eexists; split.
  - unfold placeholder.
    apply (csv_placeholder_expands K [] (Text "3") "#!csv" "csv" None);
      [reflexivity | simpl; auto].
  - repeat split.
Qed.

(** C9. Rows of differing cell counts do not make the table builder
    raise: for every body and every directive that selects the csv
    format the expansion returns, and the body rows of the table are
    the lines after the first, each split at the separator and left as
    it is, neither padded nor cut. *)
Theorem csv_rows_are_not_padded (K : Collaborators) (a : attributes) (marker : child)
        (raw n : string) (args : option string) (body : string) (spare : nat) :
  parse_directive (Py.rstrip raw) = (Some n, args) ->
  In n ["csv"; "text/csv"] ->
  exists tbl,
    __call__ K (5 + spare) (Element nowiki a [marker; Seq [raw]; Text body])
    = Ok (Element nowiki a [tbl])
    /\ table_head tbl
       = Py.split (Py.or_else args ";") (nth 0 (Py.split Py.newline body) EmptyString)
    /\ table_rows tbl
       = map (Py.split (Py.or_else args ";")) (tl (Py.split Py.newline body)).
Proof.
  intros Hparse Hn.
  eexists; split; [apply (csv_placeholder_expands K a marker raw n args); assumption |].
  split; [apply table_head_build | apply table_rows_build].
Qed.

Lemma csv_rows_are_not_padded_witness :
  exists tbl,
    __call__ Stub.K 5 (placeholder "#!csv" ("a;b" ++ Py.newline ++ "1"))
    = Ok (Element nowiki [] [tbl])
    /\ table_head tbl = ["a"; "b"]
    /\ table_rows tbl = [["1"]].
Proof.
  assert (Hparse : parse_directive (Py.rstrip "#!csv") = (Some "csv", None))
    by reflexivity.
  assert (Hn : In "csv" ["csv"; "text/csv"]) by (simpl; auto).
  exact (csv_rows_are_not_padded Stub.K [] (Text "3") "#!csv" "csv" None
           ("a;b" ++ Py.newline ++ "1") 0 Hparse Hn).
Defined.

(** ** Walking an expanded tree once more *)

Section Again.

Variable K : Collaborators.

Lemma mapM_first_raise (f : child -> outcome child) (e : exn) (l : list child) :
  (forall x, In x l ->
             (count_nowiki x = 0 -> f x = Ok x)
             /\ (count_nowiki x <> 0 -> f x = Raised e)) ->
  list_sum (map count_nowiki l) <> 0 ->
  mapM f l = Raised e.
Proof.
  induction l as [| x rest IH]; simpl; intros H Hsum; [congruence |].
  destruct (H x (or_introl eq_refl)) as [Hzero Hpos].
  destruct (Nat.eq_dec (count_nowiki x) 0) as [Hx | Hx].
  - rewrite (Hzero Hx); simpl.
    rewrite IH; [reflexivity | | lia].
    intros y Hy; apply H; right; exact Hy.
  - rewrite (Hpos Hx); reflexivity.
Qed.

Lemma recurse_again_raises (fuel : nat) :
  forall tree, expanded tree = true -> count_nowiki tree <> 0 ->
               height tree <= fuel -> recurse K fuel tree = Raised ValueError.
Proof.
  induction fuel as [| fuel IH]; intros tree Hexp Hcount Hheight.
  - destruct tree; simpl in *; try congruence; lia.
  - destruct tree as [t a children | |]; simpl in Hcount; try congruence.
    rewrite recurse_step.
    cbn [expanded] in Hexp; cbn [height] in Hheight.
    apply andb_true_iff in Hexp as [Hlen Hkids].
    destruct (is_nowiki t).
    + rewrite handle_nowiki_needs_three; [reflexivity |].
      apply orb_true_iff in Hlen as [Hlen | Hlen];
        apply Nat.eqb_eq in Hlen; lia.
    + cbn [bind].
      rewrite (mapM_first_raise (visit K fuel) ValueError); [reflexivity | | exact Hcount].
      intros x Hx.
      assert (Hhx : height x <= fuel).
      { assert (height x <= list_max (map height children))
          by (apply list_max_bound, in_map, Hx).
        lia. }
      unfold visit; destruct (is_node x) eqn:Hnx.
      * split; intros Hc.
        -- apply recurse_fixed; assumption.
        -- apply IH; [| exact Hc | exact Hhx].
           rewrite forallb_forall in Hkids; exact (Hkids x Hx).
      * split; [reflexivity |].
        rewrite (leaf_count _ Hnx); congruence.
Qed.

(** A deeper recursion limit does not change what the walker returns. *)
Lemma recurse_more_fuel (fuel : nat) :
  forall spare tree r, recurse K fuel tree = Ok r ->
                       recurse K (fuel + spare) tree = Ok r.
Proof.
  induction fuel as [| fuel IH]; intros spare tree r H; [discriminate |].
  apply recurse_Ok_inv in H
    as (f & t & a & children & k1 & k2 & Hf & -> & Hk1 & Hk2 & ->).
  injection Hf as <-.
  change (S fuel + spare) with (S (fuel + spare)).
  rewrite recurse_step, Hk1; cbn [bind].
  rewrite (Forall2_mapM_Ok (visit K (fuel + spare)) k1 k2); [reflexivity |].
  clear Hk1; induction Hk2 as [| x y k1 k2 Hxy _ IHk]; constructor; [| exact IHk].
  unfold visit in *; destruct (is_node x); [apply IH; exact Hxy | exact Hxy].
Qed.

Lemma recurse_keeps_root (fuel : nat) (tree r : child) :
  recurse K fuel tree = Ok r ->
  exists t a children children',
    tree = Element t a children /\ r = Element t a children'.
Proof.
  intros H.
  apply recurse_Ok_inv in H
    as (f & t & a & children & k1 & k2 & _ & -> & _ & _ & ->).
  exists t, a, children, k2; auto.
Qed.

End Again.

(** ** The post-condition of the expansion *)

(** C1 as stated fails: the expanded element keeps the tag nowiki, so a
    traversal of the result still finds it. *)
Lemma expanded_placeholder_is_still_tagged_nowiki :
  __call__ Stub.K 5 (placeholder "#!csv" "a;b")
  = Ok (Element nowiki [] [build_dom_table [] ["a"; "b"] "moin-csv-table moin-sortable"])
  /\ count_nowiki
       (Element nowiki [] [build_dom_table [] ["a"; "b"] "moin-csv-table moin-sortable"])
     = 1.
Proof.
  split; reflexivity.
Qed.

(** C1, amended.  When the expansion returns, the root is the element it
    was given, with its tag and attributes, and no nowiki element at any
    depth of the returned tree is left in placeholder form: each holds
    the one or two nodes its handler produced in place of marker,
    directive and body.  The tree returned does not depend on the
    recursion limit, once that is deep enough. *)
Theorem expand_leaves_no_unexpanded_placeholder
        (K : Collaborators) (fuel : nat) (tree r : child) :
  __call__ K fuel tree = Ok r ->
  expanded r = true
  /\ (exists t a children children',
         tree = Element t a children /\ r = Element t a children')
  /\ forall spare, __call__ K (fuel + spare) tree = Ok r.
Proof.
  intros H; split; [| split].
  - exact (recurse_expanded K fuel tree r H).
  - exact (recurse_keeps_root K fuel tree r H).
  - intros spare; exact (recurse_more_fuel K fuel spare tree r H).
Qed.

Lemma expand_leaves_no_unexpanded_placeholder_witness :
  exists r,
    __call__ Stub.K 9 nested_page = Ok r
    /\ expanded r = true
    /\ (exists t a children children',
           nested_page = Element t a children /\ r = Element t a children')
    /\ forall spare, __call__ Stub.K (9 + spare) nested_page = Ok r.
Proof.
  eexists; split; [reflexivity |].
  apply (expand_leaves_no_unexpanded_placeholder Stub.K 9 nested_page).
  reflexivity.
Defined.

(** ** The highlight branch when no lexer is found *)

(** C4 as stated fails: the parent of the placeholder receives no
    diagnostic; its only child is still the placeholder, and the
    diagnostic is the first child of the placeholder itself. *)
Lemma diagnostic_is_not_appended_to_the_parent :
  exists diag block,
    __call__ Stub.K 4 unknown_language_page
    = Ok (Element page [] [Element nowiki [] [diag; block]])
    /\ is_diagnostic diag = true
    /\ existsb is_diagnostic [Element nowiki [] [diag; block]] = false.
Proof.
  do 2 eexists; split; [reflexivity | split; reflexivity].
Qed.

(** C4, amended.  For a highlight directive whose lexer hint is found
    neither by name nor by mimetype, the diagnostic is appended to the
    placeholder element itself, emptied just before, and the body
    rendered by the [text] lexer is appended after it; the parent keeps
    the placeholder as the child it was.  Given that the [text] lexer
    exists and the formatter emits no nowiki element, the expansion of
    the parent returns. *)
Theorem unresolved_highlight_diagnostic_goes_into_placeholder
        (K : Collaborators) (t : tag) (pa a : attributes) (marker : child)
        (raw : string) (hint : option string) (body : string) (lx : lexer K)
        (fuel : nat) :
  is_nowiki t = false ->
  legacy_alias (parse_directive (Py.rstrip raw)) = (Some "highlight", hint) ->
  get_lexer_by_name K hint = None ->
  get_lexer_for_mimetype K hint = None ->
  get_lexer_by_name K (Some "text") = Some lx ->
  count_nowiki (highlight_block K body lx) = 0 ->
  height (highlight_block K body lx) <= fuel ->
  2 <= fuel ->
  handle_nowiki K [marker; Seq [raw]; Text body]
  = Ok [admonition K (Py.rstrip raw); highlight_block K body lx]
  /\ __call__ K (S (S fuel)) (Element t pa [Element nowiki a [marker; Seq [raw]; Text body]])
     = Ok (Element t pa
             [Element nowiki a [admonition K (Py.rstrip raw); highlight_block K body lx]]).
Proof.
  intros Ht Halias Hname Hmime Htext Hcount Hheight Hfuel.
  assert (Hhandle : handle_nowiki K [marker; Seq [raw]; Text body]
                    = Ok [admonition K (Py.rstrip raw); highlight_block K body lx]).
  { rewrite (handle_nowiki_highlight_unresolved K marker (Text body) raw hint
               Halias Hname Hmime).
    rewrite Htext; reflexivity. }
  split; [exact Hhandle |].
  unfold __call__.
  rewrite recurse_step, Ht; cbn [bind mapM].
  unfold visit at 1; cbn [is_node].
  rewrite recurse_step; cbn [is_nowiki].
  rewrite Hhandle; cbn [bind mapM].
  unfold visit.
  change (is_node (admonition K (Py.rstrip raw))) with true.
  change (is_node (highlight_block K body lx)) with true.
  cbv iota.
  rewrite (recurse_fixed K fuel (admonition K (Py.rstrip raw)));
    [| reflexivity | reflexivity | simpl; lia].
  rewrite (recurse_fixed K fuel (highlight_block K body lx));
    [reflexivity | reflexivity | exact Hcount | exact Hheight].
Qed.

Lemma unresolved_highlight_diagnostic_goes_into_placeholder_witness :
  handle_nowiki Stub.K [Text "3"; Seq ["#!highlight not-a-real-language"]; Text "x"]
  = Ok [admonition Stub.K "#!highlight not-a-real-language";
        highlight_block Stub.K "x" "text"]
  /\ __call__ Stub.K 4 unknown_language_page
     = Ok (Element page []
             [Element nowiki []
                [admonition Stub.K "#!highlight not-a-real-language";
                 highlight_block Stub.K "x" "text"]]).
Proof.
  apply (unresolved_highlight_diagnostic_goes_into_placeholder
           Stub.K page [] [] (Text "3") "#!highlight not-a-real-language"
           (Some "not-a-real-language") "x" "text" 2);
    try reflexivity; simpl; lia.
Defined.

(** ** The legacy names *)

(** C6 as stated fails when the registry knows no lexer for the legacy
    name, as for [cplusplus] here: both directives fall back to plain
    text, and the diagnostic of each quotes its own directive line. *)
Lemma legacy_alias_trees_differ_when_unresolved :
  In "cplusplus" legacy_names
  /\ __call__ Stub.K 4 (placeholder "#!cplusplus" "x")
     <> __call__ Stub.K 4 (placeholder "#!highlight cplusplus" "x").
Proof.
  split; [simpl; auto |].
  vm_compute; intros H; discriminate H.
Qed.

(** C6, amended.  For each legacy name for which the registry finds a
    lexer, by name or else by mimetype, the directive [#!name] and the
    directive [#!highlight name] give the same outcome on the same
    body: the rewrite to [highlight] with the name as its argument
    happens before the dispatch. *)
Theorem legacy_alias_same_tree_when_lexer_resolves
        (K : Collaborators) (n : string) (lx : lexer K) (fuel : nat)
        (a : attributes) (marker content : child) :
  In n legacy_names ->
  get_lexer_by_name K (Some n) = Some lx
  \/ (get_lexer_by_name K (Some n) = None /\ get_lexer_for_mimetype K (Some n) = Some lx) ->
  legacy_alias (parse_directive ("#!" ++ n)) = (Some "highlight", Some n)
  /\ parse_directive ("#!highlight " ++ n) = (Some "highlight", Some n)
  /\ __call__ K fuel (Element nowiki a [marker; Seq ["#!" ++ n]; content])
     = __call__ K fuel (Element nowiki a [marker; Seq ["#!highlight " ++ n]; content]).
Proof.
  intros Hn Hlx.
  assert (Hold : Py.rstrip ("#!" ++ n) = "#!" ++ n
                 /\ legacy_alias (parse_directive ("#!" ++ n)) = (Some "highlight", Some n)).
  { simpl in Hn; decompose [or] Hn; subst; try contradiction; split; reflexivity. }
  assert (Hnew : Py.rstrip ("#!highlight " ++ n) = "#!highlight " ++ n
                 /\ parse_directive ("#!highlight " ++ n) = (Some "highlight", Some n)).
  { simpl in Hn; decompose [or] Hn; subst; try contradiction; split; reflexivity. }
  destruct Hold as [Hold_trim Hold], Hnew as [Hnew_trim Hnew].
  split; [exact Hold | split; [exact Hnew |]].
  unfold __call__; destruct fuel as [| fuel]; [reflexivity |].
  rewrite !recurse_step; cbn [is_nowiki].
  rewrite (handle_nowiki_highlight_resolved K marker content ("#!" ++ n) (Some n) lx);
    [| rewrite Hold_trim; exact Hold | exact Hlx].
  rewrite (handle_nowiki_highlight_resolved K marker content ("#!highlight " ++ n)
             (Some n) lx);
    [reflexivity | rewrite Hnew_trim, Hnew; reflexivity | exact Hlx].
Qed.

Lemma legacy_alias_same_tree_when_lexer_resolves_witness :
  legacy_alias (parse_directive "#!python") = (Some "highlight", Some "python")
  /\ parse_directive "#!highlight python" = (Some "highlight", Some "python")
  /\ __call__ Stub.K 3 (placeholder "#!python" "x = 1")
     = __call__ Stub.K 3 (placeholder "#!highlight python" "x = 1").
Proof.
  apply (legacy_alias_same_tree_when_lexer_resolves
           Stub.K "python" "python" 3 [] (Text "3") (Text "x = 1")).
  - simpl; auto.
  - left; reflexivity.
Defined.

(** ** Expanding twice *)

(** C5 as stated fails: after one expansion the nowiki element holds the
    table alone, and a second call, which unpacks the children of every
    nowiki element into marker, directive and body, raises. *)
Lemma second_expand_raises :
  let once :=
    Element nowiki [] [build_dom_table [] ["a"; "b"] "moin-csv-table moin-sortable"] in
  __call__ Stub.K 5 (placeholder "#!csv" "a;b") = Ok once
  /\ (forall fuel, __call__ Stub.K (S fuel) once = Raised ValueError)
  /\ (forall fuel, __call__ Stub.K fuel once <> Ok once).
Proof.
  cbv zeta; split; [reflexivity | split].
  - intros fuel; reflexivity.
  - intros [| fuel]; discriminate.
Qed.

(** C5, amended.  On the tree a first expansion returned, a second call
    is a no-op exactly when the tree holds no element tagged nowiki: it
    then returns the tree as it is.  When the tree holds such an
    element, the first call having expanded it, the second call raises
    ValueError and returns for no recursion depth. *)
Theorem second_expand_is_noop_only_without_nowiki
        (K : Collaborators) (fuel : nat) (tree r : child) :
  __call__ K fuel tree = Ok r ->
  (count_nowiki r = 0 -> __call__ K fuel r = Ok r)
  /\ (count_nowiki r <> 0 ->
      __call__ K fuel r = Raised ValueError
      /\ forall fuel' r', __call__ K fuel' r <> Ok r').
Proof.
  unfold __call__; intros H.
  pose proof (recurse_expanded K fuel tree r H) as Hexp.
  pose proof (recurse_height K fuel tree r H) as Hheight.
  destruct (recurse_keeps_root K fuel tree r H) as (t & a & c & c' & _ & Hr).
  split.
  - intros Hcount; apply recurse_fixed; [subst r; reflexivity | exact Hcount | exact Hheight].
  - intros Hcount; split.
    + apply recurse_again_raises; assumption.
    + intros fuel' r'; apply recurse_again_stuck; assumption.
Qed.

Lemma second_expand_is_noop_only_without_nowiki_witness :
  let plain := Element page [] [Element p [] [Text "no block here"]] in
  let once :=
    Element nowiki [] [build_dom_table [] ["a"; "b"] "moin-csv-table moin-sortable"] in
  __call__ Stub.K 3 plain = Ok plain
  /\ __call__ Stub.K 5 once = Raised ValueError
  /\ forall fuel' r', __call__ Stub.K fuel' once <> Ok r'.
Proof.
  cbv zeta; split.
  - apply (proj1 (second_expand_is_noop_only_without_nowiki
                    Stub.K 3 (Element page [] [Element p [] [Text "no block here"]]) _
                    eq_refl)).
    reflexivity.
  - apply (proj2 (second_expand_is_noop_only_without_nowiki
                    Stub.K 5 (placeholder "#!csv" "a;b") _ eq_refl)).
    simpl; discriminate.
Defined.

(** ** Splitting and joining *)

Section Splitting.

Lemma split_scan_not_nil (sep : string) (s : string) :
  forall skip limit, Py.split_scan sep skip limit s <> [].
Proof.
  induction s as [| c s IH]; intros skip limit; [discriminate |].
  cbn [Py.split_scan]; destruct skip as [| k]; [| apply IH].
  destruct (Py.may_split limit && prefix sep (String c s)); [discriminate |].
  specialize (IH 0 limit).
  destruct (Py.split_scan sep 0 limit s); [contradiction | discriminate].
Qed.

Lemma join_cons_head (sep : string) (c : ascii) (l : list string) :
  l <> [] -> Py.join sep (Py.cons_head c l) = String c (Py.join sep l).
Proof.
  destruct l as [| h [| h' t]]; [congruence | reflexivity | reflexivity].
Qed.

Lemma join_after_empty (sep : string) (l : list string) :
  l <> [] -> Py.join sep (EmptyString :: l) = sep ++ Py.join sep l.
Proof.
  destruct l as [| h t]; [congruence | reflexivity].
Qed.

Lemma prefix_drop (pre s : string) :
  prefix pre s = true -> s = pre ++ Py.drop (String.length pre) s.
Proof.
  revert s; induction pre as [| a pre IH]; intros s H; [reflexivity |].
  destruct s as [| b s]; [discriminate |].
  cbn [prefix] in H.
  destruct (ascii_dec a b) as [<- | _]; [| discriminate].
  cbn [String.length Py.drop append]; rewrite <- (IH s H); reflexivity.
Qed.

(** Joining what a split returned gives the string back, less the
    characters the scan was told to pass over. *)
Lemma join_split_scan (sep : string) :
  sep <> EmptyString ->
  forall s skip limit,
    Py.join sep (Py.split_scan sep skip limit s) = Py.drop skip s.
Proof.
  intros Hsep; induction s as [| c s IH]; intros skip limit.
  - destruct skip; reflexivity.
  - cbn [Py.split_scan]; destruct skip as [| k]; [| apply IH].
    destruct (Py.may_split limit && prefix sep (String c s)) eqn:Hm.
    + apply andb_true_iff in Hm as [_ Hp].
      rewrite join_after_empty by apply split_scan_not_nil.
      rewrite IH.
      destruct sep as [| a sep']; [congruence |].
      apply prefix_drop in Hp.
      cbn [String.length pred Py.drop] in *; symmetry; exact Hp.
    + rewrite join_cons_head by apply split_scan_not_nil.
      rewrite IH; reflexivity.
Qed.

Lemma join_split (sep s : string) :
  sep <> EmptyString -> Py.join sep (Py.split sep s) = s.
Proof.
  intros Hsep; unfold Py.split; rewrite (join_split_scan sep Hsep); reflexivity.
Qed.

Lemma length_cons_head (c : ascii) (l : list string) :
  l <> [] -> List.length (Py.cons_head c l) = List.length l.
Proof.
  destruct l; [congruence | reflexivity].
Qed.

Lemma prefix_char (c d : ascii) (s : string) :
  prefix (String c EmptyString) (String d s) = Ascii.eqb d c.
Proof.
  change (prefix (String c EmptyString) (String d s))
    with (if ascii_dec c d then prefix EmptyString s else false).
  destruct (ascii_dec c d) as [<- | Hne].
  - rewrite Ascii.eqb_refl; destruct s; reflexivity.
  - symmetry; apply Ascii.eqb_neq; congruence.
Qed.

(** A one-character separator cuts a string into one item more than
    the separator occurs. *)
Lemma length_split_char (c : ascii) (s : string) :
  List.length (Py.split (String c EmptyString) s) = S (occurrences c s).
Proof.
  unfold Py.split; induction s as [| d s IH]; [reflexivity |].
  cbn [Py.split_scan Py.may_split andb occurrences].
  rewrite prefix_char.
  destruct (Ascii.eqb d c).
  - cbn [String.length pred Py.spend List.length]; rewrite IH; reflexivity.
  - rewrite length_cons_head by apply split_scan_not_nil.
    rewrite IH; reflexivity.
Qed.

Lemma rstrip_all_space (ws : string) :
  all_space ws = true -> Py.rstrip ws = EmptyString.
Proof.
  induction ws as [| c ws IH]; [reflexivity |].
  cbn [all_space Py.rstrip]; intros H.
  apply andb_true_iff in H as [Hc Hws].
  rewrite (IH Hws), Hc; reflexivity.
Qed.

Lemma rstrip_trailing (s ws : string) :
  all_space ws = true -> Py.rstrip (s ++ ws) = Py.rstrip s.
Proof.
  intros Hws; induction s as [| c s IH].
  - exact (rstrip_all_space ws Hws).
  - change (String c s ++ ws) with (String c (s ++ ws)).
    cbn [Py.rstrip]; rewrite IH; reflexivity.
Qed.

End Splitting.

(** ** What the directive parser and the table builder keep *)

Lemma append_empty (s : string) : s ++ EmptyString = s.
Proof.
  induction s as [| c s IH]; [reflexivity |].
  change (String c s ++ EmptyString) with (String c (s ++ EmptyString)).
  rewrite IH; reflexivity.
Qed.

Lemma startswith_sentinel (rest : string) : Py.startswith "#!" ("#!" ++ rest) = true.
Proof.
  unfold Py.startswith.
  change ("#!" ++ rest) with (String "#" (String "!" rest)).
  cbn [prefix].
  destruct (ascii_dec "#" "#") as [_ | H]; [| congruence].
  destruct (ascii_dec "!" "!") as [_ | H]; [| congruence].
  destruct rest; reflexivity.
Qed.

Lemma parse_directive_rebuild (line n : string) (a : option string) :
  parse_directive line = (Some n, a) ->
  line = "#!" ++ n ++ match a with
                      | Some x => " " ++ x
                      | None => EmptyString
                      end
  /\ Py.contains " " n = false
  /\ 2 < String.length line.
Proof.
  intros H.
  destruct (Py.startswith "#!" line) eqn:Hp;
    [| unfold parse_directive in H; rewrite Hp in H; discriminate].
  destruct (2 <? String.length line)%nat eqn:Hl;
    [| unfold parse_directive in H; rewrite Hp, Hl in H; discriminate].
  apply Nat.ltb_lt in Hl.
  pose proof (prefix_drop "#!" line Hp) as Hline.
  cbn [String.length] in Hline.
  destruct (first_space (Py.drop 2 line)) as [Hns | (name & args & Hd & Hname)].
  - rewrite (parse_directive_name_only line Hp Hl Hns) in H.
    inversion H; subst n a.
    rewrite append_empty; auto.
  - rewrite (parse_directive_name_args line name args Hp Hl Hd Hname) in H.
    inversion H; subst n a.
    rewrite <- Hd; auto.
Qed.

Lemma parse_directive_same_line (line1 line2 n : string) (a : option string) :
  parse_directive line1 = (Some n, a) -> parse_directive line2 = (Some n, a) ->
  line1 = line2.
Proof.
  intros H1 H2.
  apply parse_directive_rebuild in H1 as (-> & _).
  apply parse_directive_rebuild in H2 as (-> & _).
  reflexivity.
Qed.

(** X1. The directive parser loses nothing: it returns a name exactly
    for the lines [#!name] (name not empty) and [#!name args], the name
    holding no space, so the line can be rebuilt from what is
    returned. *)
Theorem parse_directive_round_trip (line n : string) (a : option string) :
  parse_directive line = (Some n, a)
  <-> (line = "#!" ++ n ++ match a with
                          | Some x => " " ++ x
                          | None => EmptyString
                          end
       /\ Py.contains " " n = false
       /\ 2 < String.length line).
Proof.
  split; [apply parse_directive_rebuild |].
  intros (Hline & Hn & Hl).
  assert (Hp : Py.startswith "#!" line = true)
    by (rewrite Hline; apply startswith_sentinel).
  assert (Hd : Py.drop 2 line
               = n ++ match a with
                      | Some x => " " ++ x
                      | None => EmptyString
                      end)
    by (rewrite Hline; reflexivity).
  destruct a as [x |].
  - apply (parse_directive_name_args line n x Hp Hl Hd Hn).
  - rewrite append_empty in Hd.
    rewrite (parse_directive_name_only line Hp Hl); rewrite Hd; auto.
Qed.

Lemma parse_directive_round_trip_witness :
  "#!csv ; quoted" = "#!" ++ "csv" ++ " " ++ "; quoted"
  /\ Py.contains " " "csv" = false
  /\ 2 < String.length "#!csv ; quoted".
Proof.
  apply (proj1 (parse_directive_round_trip "#!csv ; quoted" "csv" (Some "; quoted"))).
  reflexivity.
Defined.

Section Csv.

Variable K : Collaborators.
Variables (a : attributes) (marker : child) (raw n : string) (args : option string).
Variables (body : string) (spare : nat).
Hypothesis Hparse : parse_directive (Py.rstrip raw) = (Some n, args).
Hypothesis Hn : In n ["csv"; "text/csv"].

Lemma split_head_tail (sep s : string) :
  Py.split sep s = nth 0 (Py.split sep s) EmptyString :: tl (Py.split sep s).
Proof.
  unfold Py.split.
  pose proof (split_scan_not_nil sep s 0 None) as H.
  destruct (Py.split_scan sep 0 None s); [contradiction | reflexivity].
Qed.

(** X2. The table of a csv block holds the whole body: joining the
    cells of the header and of each row with the separator, and the
    rows with newlines, gives the body back. *)
Theorem csv_table_keeps_the_body :
  exists tbl,
    __call__ K (5 + spare) (Element nowiki a [marker; Seq [raw]; Text body])
    = Ok (Element nowiki a [tbl])
    /\ Py.join Py.newline
         (map (Py.join (Py.or_else args ";")) (table_head tbl :: table_rows tbl))
       = body.
Proof.
  eexists; split;
    [apply (csv_placeholder_expands K a marker raw n args body spare Hparse Hn) |].
  rewrite table_head_build, table_rows_build.
  pose proof (csv_separator_not_empty args) as Hsep.
  cbn [map]; rewrite map_map, (join_split _ _ Hsep).
  rewrite (map_ext _ (fun x => x)) by (intros x; apply (join_split _ _ Hsep)).
  rewrite map_id, <- split_head_tail.
  apply join_split; discriminate.
Qed.

(** X3. The table has one body row for every newline character of the
    body, so none for a body of one line and one more, of a single
    empty cell, for a body that ends in a newline; neither the header
    nor any row is without a cell. *)
Theorem csv_table_rows_follow_newlines :
  exists tbl,
    __call__ K (5 + spare) (Element nowiki a [marker; Seq [raw]; Text body])
    = Ok (Element nowiki a [tbl])
    /\ List.length (table_rows tbl) = occurrences "010" body
    /\ table_head tbl <> []
    /\ Forall (fun row => row <> []) (table_rows tbl).
Proof.
  eexists; split;
    [apply (csv_placeholder_expands K a marker raw n args body spare Hparse Hn) |].
  rewrite table_head_build, table_rows_build.
  split; [| split].
  - rewrite length_map.
    pose proof (length_split_char "010" body) as Hlen.
    fold Py.newline in Hlen.
    rewrite split_head_tail in Hlen; cbn [List.length] in Hlen; lia.
  - apply split_scan_not_nil.
  - apply Forall_forall; intros row Hrow.
    apply in_map_iff in Hrow as (l & <- & _); apply split_scan_not_nil.
Qed.

End Csv.

Lemma csv_table_keeps_the_body_witness :
  exists tbl,
    __call__ Stub.K 5 (placeholder "#!csv ," ("a,b" ++ Py.newline ++ "1" ++ Py.newline))
    = Ok (Element nowiki [] [tbl])
    /\ Py.join Py.newline (map (Py.join ",") (table_head tbl :: table_rows tbl))
       = "a,b" ++ Py.newline ++ "1" ++ Py.newline.
Proof.
  apply (csv_table_keeps_the_body Stub.K [] (Text "3") "#!csv ," "csv" (Some ",")
           ("a,b" ++ Py.newline ++ "1" ++ Py.newline) 0);
    [reflexivity | simpl; auto].
Defined.

Lemma csv_table_rows_follow_newlines_witness :
  exists tbl,
    __call__ Stub.K 5 (placeholder "#!csv" ("a;b" ++ Py.newline ++ "1" ++ Py.newline))
    = Ok (Element nowiki [] [tbl])
    /\ List.length (table_rows tbl) = 2
    /\ table_head tbl <> []
    /\ Forall (fun row => row <> []) (table_rows tbl).
Proof.
  apply (csv_table_rows_follow_newlines Stub.K [] (Text "3") "#!csv" "csv" None
           ("a;b" ++ Py.newline ++ "1" ++ Py.newline) 0);
    [reflexivity | simpl; auto].
Defined.

(** ** The dispatch over format names *)

Section Dispatch.

Variable K : Collaborators.

Ltac run_branch Hparse :=
  unfold handle_nowiki, directive_line; cbn [bind];
  rewrite Hparse; reflexivity.

Lemma handle_nowiki_creole (marker : child) (raw n : string) (args : option string)
      (body : string) :
  parse_directive (Py.rstrip raw) = (Some n, args) ->
  In n ["creole"; "text/x.moin.creole"] ->
  handle_nowiki K [marker; Seq [raw]; Text body] =
    (sub <- of_option SubParserError
              (creole_parse_block K (normalize_split_text K body) args) ;;
     Ok [Element page [] [sub]]).
Proof.
  intros Hparse [<- | [<- | []]]; run_branch Hparse.
Qed.

Lemma handle_nowiki_rst (marker : child) (raw n : string) (args : option string)
      (body : string) :
  parse_directive (Py.rstrip raw) = (Some n, args) ->
  In n ["rst"; "text/x-rst"] ->
  handle_nowiki K [marker; Seq [raw]; Text body] =
    (pg <- of_option SubParserError (rst_converter K body "text/x-rst;charset=utf-8") ;;
     Ok [pg]).
Proof.
  intros Hparse [<- | [<- | []]]; run_branch Hparse.
Qed.

Lemma handle_nowiki_docbook (marker : child) (raw n : string) (args : option string)
      (body : string) :
  parse_directive (Py.rstrip raw) = (Some n, args) ->
  In n ["docbook"; "application/docbook+xml"] ->
  handle_nowiki K [marker; Seq [raw]; Text body] =
    (pg <- of_option SubParserError
             (docbook_converter K body "application/docbook+xml;charset=utf-8") ;;
     Ok [pg]).
Proof.
  intros Hparse [<- | [<- | []]]; run_branch Hparse.
Qed.

Lemma handle_nowiki_markdown (marker : child) (raw n : string) (args : option string)
      (body : string) :
  parse_directive (Py.rstrip raw) = (Some n, args) ->
  In n ["markdown"; "text/x-markdown"] ->
  handle_nowiki K [marker; Seq [raw]; Text body] =
    (pg <- of_option SubParserError
             (markdown_converter K body "text/x-markdown;charset=utf-8") ;;
     Ok [pg]).
Proof.
  intros Hparse [<- | [<- | []]]; run_branch Hparse.
Qed.

Lemma handle_nowiki_mediawiki (marker : child) (raw n : string) (args : option string)
      (body : string) :
  parse_directive (Py.rstrip raw) = (Some n, args) ->
  In n ["mediawiki"; "text/x-mediawiki"] ->
  handle_nowiki K [marker; Seq [raw]; Text body] =
    (pg <- of_option SubParserError (mediawiki_converter K body args) ;;
     Ok [pg]).
Proof.
  intros Hparse [<- | [<- | []]]; run_branch Hparse.
Qed.

(** X4. A format name and its mimetype alias select the same handler:
    two placeholders with the same body and the same arguments whose
    names are in one group ([csv] and [text/csv], [wiki] and
    [text/x.moin.wiki], ...) have the same outcome. *)
Theorem mimetype_alias_selects_the_same_handler
        (group : list string) (n1 n2 raw1 raw2 : string) (args : option string)
        (marker1 marker2 content : child) :
  In group format_groups -> In n1 group -> In n2 group ->
  parse_directive (Py.rstrip raw1) = (Some n1, args) ->
  parse_directive (Py.rstrip raw2) = (Some n2, args) ->
  handle_nowiki K [marker1; Seq [raw1]; content]
  = handle_nowiki K [marker2; Seq [raw2]; content].
Proof.
  intros Hg H1 H2 Hp1 Hp2.
  assert (Hline : n1 = n2 -> Py.rstrip raw1 = Py.rstrip raw2).
  { intros <-; exact (parse_directive_same_line _ _ _ _ Hp1 Hp2). }
  unfold handle_nowiki, directive_line; cbn [bind].
  rewrite Hp1, Hp2.
  unfold format_groups in Hg; cbn [In] in Hg.
  repeat (destruct Hg as [<- | Hg]; [cbn [In] in H1, H2 |]); try contradiction;
    repeat (destruct H1 as [<- | H1]; try contradiction);
    repeat (destruct H2 as [<- | H2]; try contradiction);
    try rewrite (Hline eq_refl); reflexivity.
Qed.

(** X5. The reStructuredText, DocBook and Markdown handlers pass a
    fixed content type and never the directive's arguments: whatever
    follows the format name, the outcome is the same. *)
Theorem whole_text_converters_ignore_arguments
        (group : list string) (n1 n2 raw1 raw2 : string) (args1 args2 : option string)
        (marker1 marker2 content : child) :
  In group [["rst"; "text/x-rst"];
            ["docbook"; "application/docbook+xml"];
            ["markdown"; "text/x-markdown"]] ->
  In n1 group -> In n2 group ->
  parse_directive (Py.rstrip raw1) = (Some n1, args1) ->
  parse_directive (Py.rstrip raw2) = (Some n2, args2) ->
  handle_nowiki K [marker1; Seq [raw1]; content]
  = handle_nowiki K [marker2; Seq [raw2]; content].
Proof.
  intros Hg H1 H2 Hp1 Hp2.
  unfold handle_nowiki, directive_line; cbn [bind].
  rewrite Hp1, Hp2.
  cbn [In] in Hg.
  repeat (destruct Hg as [<- | Hg]; [cbn [In] in H1, H2 |]); try contradiction;
    repeat (destruct H1 as [<- | H1]; try contradiction);
    repeat (destruct H2 as [<- | H2]; try contradiction);
    reflexivity.
Qed.

Lemma name_not_listed (n : string) (names : list string) :
  name_in (Some n) names = false -> forall m, In m names -> String.eqb n m = false.
Proof.
  unfold name_in; intros H m Hm.
  destruct (String.eqb n m) eqn:Heq; [| reflexivity].
  rewrite <- H; symmetry; apply existsb_exists; exists m; auto.
Qed.

(** X6. Matching is exact: a directive whose name is none of the six
    legacy names and none of the fifteen format names, whether it
    differs by case, by a character or is absent, takes the fallback of
    lines 139-144, the diagnostic followed by the plain-text block. *)
Theorem unlisted_name_takes_the_fallback
        (marker content : child) (raw : string) (name args : option string) :
  parse_directive (Py.rstrip raw) = (name, args) ->
  name_in name legacy_names = false ->
  name_in name format_names = false ->
  handle_nowiki K [marker; Seq [raw]; content]
  = plain_text_fallback K [] (Py.rstrip raw) content.
Proof.
  intros Hparse Hlegacy Hformat.
  unfold handle_nowiki, directive_line; cbn [bind].
  rewrite Hparse; unfold legacy_alias; rewrite Hlegacy.
  destruct name as [n |]; [| reflexivity].
  pose proof (name_not_listed n format_names Hformat) as Hno.
  unfold resolve_lexer, name_in; cbn [existsb].
  rewrite !Hno by (unfold format_names, format_groups; cbn [List.concat app In]; tauto).
  reflexivity.
Qed.

End Dispatch.

Lemma mimetype_alias_selects_the_same_handler_witness :
  handle_nowiki Stub.K [Text "3"; Seq ["#!csv ,"]; Text "a,b"]
  = handle_nowiki Stub.K [Text "{{{{"; Seq ["#!text/csv ,  "]; Text "a,b"].
Proof.
  apply (mimetype_alias_selects_the_same_handler
           Stub.K ["csv"; "text/csv"] "csv" "text/csv" "#!csv ," "#!text/csv ,  " (Some ","));
    try reflexivity; simpl; auto.
Defined.

Lemma whole_text_converters_ignore_arguments_witness :
  handle_nowiki Stub.K [Text "3"; Seq ["#!rst"]; Text "Title"]
  = handle_nowiki Stub.K [Text "3"; Seq ["#!text/x-rst numbered lines"]; Text "Title"].
Proof.
  apply (whole_text_converters_ignore_arguments
           Stub.K ["rst"; "text/x-rst"] "rst" "text/x-rst" "#!rst" "#!text/x-rst numbered lines"
           None (Some "numbered lines"));
    try reflexivity; simpl; auto.
Defined.

Lemma unlisted_name_takes_the_fallback_witness :
  handle_nowiki Stub.K [Text "3"; Seq ["#!CSV"]; Text "a;b"]
  = plain_text_fallback Stub.K [] "#!CSV" (Text "a;b").
Proof.
  apply (unlisted_name_takes_the_fallback Stub.K (Text "3") (Text "a;b") "#!CSV" (Some "CSV") None);
    reflexivity.
Defined.


(** ** Failures of the collaborators *)

Section Failures.

Variable K : Collaborators.

(** X7. The handler itself raises nothing on a well-formed
    placeholder: when the [text] lexer exists and none of the six
    converters raises, [handle_nowiki] returns for every directive line
    and every body, whatever the format and however the lexer lookups
    turn out. *)
Theorem handle_nowiki_returns_when_collaborators_do
        (marker : child) (raw : string) (items : list string) (body : string) :
  get_lexer_by_name K (Some "text") <> None ->
  (forall lines arguments, moinwiki_parse_block K lines arguments <> None) ->
  (forall lines args, creole_parse_block K lines args <> None) ->
  (forall text contenttype, rst_converter K text contenttype <> None) ->
  (forall text contenttype, docbook_converter K text contenttype <> None) ->
  (forall text contenttype, markdown_converter K text contenttype <> None) ->
  (forall text args, mediawiki_converter K text args <> None) ->
  exists out, handle_nowiki K [marker; Seq (raw :: items); Text body] = Ok out.
Proof.
  intros Htext Hwiki Hcreole Hrst Hdocbook Hmarkdown Hmediawiki.
  unfold handle_nowiki, directive_line; cbn [bind].
  destruct (parse_directive (Py.rstrip raw)) as [n0 a0].
  destruct (legacy_alias (n0, a0)) as [n args].
  unfold resolve_lexer, plain_text_fallback.
  destruct (get_lexer_by_name K (Some "text")) as [tx |] eqn:Etext; [| congruence].
  destruct (name_in n ["highlight"]).
  - destruct (get_lexer_by_name K args); [cbn; eauto |].
    destruct (get_lexer_for_mimetype K args); cbn; eauto.
  - cbn [bind].
    repeat match goal with
           | |- context [if ?b then _ else _] => destruct b
           end; cbn [bind as_text of_option].
    + eauto.
    + destruct (moinwiki_parse_block K _ _) eqn:E; [cbn; eauto | elim (Hwiki _ _ E)].
    + destruct (creole_parse_block K _ _) eqn:E; [cbn; eauto | elim (Hcreole _ _ E)].
    + destruct (rst_converter K _ _) eqn:E; [cbn; eauto | elim (Hrst _ _ E)].
    + destruct (docbook_converter K _ _) eqn:E; [cbn; eauto | elim (Hdocbook _ _ E)].
    + destruct (markdown_converter K _ _) eqn:E; [cbn; eauto | elim (Hmarkdown _ _ E)].
    + destruct (mediawiki_converter K _ _) eqn:E; [cbn; eauto | elim (Hmediawiki _ _ E)].
    + eauto.
Qed.

Lemma call_raises (fuel : nat) (a : attributes) (children : list child) (e : exn) :
  handle_nowiki K children = Raised e ->
  __call__ K (S fuel) (Element nowiki a children) = Raised e.
Proof.
  intros H; unfold __call__; rewrite recurse_step; cbn [is_nowiki].
  rewrite H; reflexivity.
Qed.

(** X8. A failure of the converter a directive selects is not absorbed:
    the expansion raises, with no diagnostic and no plain-text
    fallback.  The wiki converter is given the class keyword made from
    the arguments, the creole and mediawiki converters the arguments as
    they are, the other three a fixed content type. *)
Theorem converter_failure_propagates
        (fuel : nat) (a : attributes) (marker : child) (raw n : string)
        (args : option string) (body : string) :
  parse_directive (Py.rstrip raw) = (Some n, args) ->
  (In n ["wiki"; "text/x.moin.wiki"]
   /\ moinwiki_parse_block K (normalize_split_text K body) (wiki_arguments args) = None)
  \/ (In n ["creole"; "text/x.moin.creole"]
      /\ creole_parse_block K (normalize_split_text K body) args = None)
  \/ (In n ["rst"; "text/x-rst"]
      /\ rst_converter K body "text/x-rst;charset=utf-8" = None)
  \/ (In n ["docbook"; "application/docbook+xml"]
      /\ docbook_converter K body "application/docbook+xml;charset=utf-8" = None)
  \/ (In n ["markdown"; "text/x-markdown"]
      /\ markdown_converter K body "text/x-markdown;charset=utf-8" = None)
  \/ (In n ["mediawiki"; "text/x-mediawiki"]
      /\ mediawiki_converter K body args = None) ->
  __call__ K (S fuel) (Element nowiki a [marker; Seq [raw]; Text body])
  = Raised SubParserError.
Proof.
  intros Hparse Hfail; apply call_raises.
  destruct Hfail as [[Hn E] | [[Hn E] | [[Hn E] | [[Hn E] | [[Hn E] | [Hn E]]]]]].
  - rewrite (handle_nowiki_wiki K marker (Text body) raw n args body eq_refl Hparse Hn).
    rewrite E; reflexivity.
  - rewrite (handle_nowiki_creole K marker raw n args body Hparse Hn), E; reflexivity.
  - rewrite (handle_nowiki_rst K marker raw n args body Hparse Hn), E; reflexivity.
  - rewrite (handle_nowiki_docbook K marker raw n args body Hparse Hn), E; reflexivity.
  - rewrite (handle_nowiki_markdown K marker raw n args body Hparse Hn), E; reflexivity.
  - rewrite (handle_nowiki_mediawiki K marker raw n args body Hparse Hn), E; reflexivity.
Qed.

End Failures.

Lemma handle_nowiki_returns_when_collaborators_do_witness :
  exists out,
    handle_nowiki Stub.K [Text "3"; Seq ["#!creole"; "ignored"]; Text "= Title ="] = Ok out.
Proof.
  apply (handle_nowiki_returns_when_collaborators_do Stub.K);
    try discriminate.
  intros [| opening rest] arguments; simpl; [discriminate |].
  destruct (Py.startswith "{{{" opening && (3 <? String.length opening)%nat);
    discriminate.
Defined.

Lemma converter_failure_propagates_witness :
  __call__ Stub.bare 1 (placeholder "#!rst" "Title") = Raised SubParserError.
Proof.
  apply (converter_failure_propagates Stub.bare 0 [] (Text "3") "#!rst" "rst" None "Title");
    [reflexivity |].
  right; right; left; split; [simpl; auto | reflexivity].
Defined.

(** ** What the walker does and does not touch *)

Lemma Forall2_nth_error {A B : Type} (R : A -> B -> Prop) (l : list A) (l' : list B) :
  Forall2 R l l' ->
  forall i x, nth_error l i = Some x -> exists y, nth_error l' i = Some y /\ R x y.
Proof.
  induction 1 as [| a b l l' Hab _ IH]; intros [| i] x Hx; try discriminate.
  - inversion Hx; subst; exists b; auto.
  - exact (IH i x Hx).
Qed.

Section Shape.

Variable K : Collaborators.

(** X9. A nowiki element that the walker reaches and that does not have
    exactly three children stops the expansion: it returns for no
    recursion depth, wherever in the tree the element is and whatever
    else the tree holds. *)
Theorem malformed_placeholder_stops_the_expansion (tree : child) :
  blocked tree = true -> forall fuel r, __call__ K fuel tree <> Ok r.
Proof.
  unfold __call__; intros Hb fuel; revert tree Hb.
  induction fuel as [| fuel IH]; intros tree Hb r; [discriminate |].
  destruct tree as [t a children | |]; try discriminate.
  rewrite recurse_step; cbn [blocked] in Hb.
  destruct (is_nowiki t).
  - rewrite handle_nowiki_needs_three; [discriminate |].
    apply negb_true_iff, Nat.eqb_neq in Hb; exact Hb.
  - cbn [bind]; apply existsb_exists in Hb as (x & Hx & Hbx).
    intros H; apply bind_Ok in H as (k2 & Hk2 & _).
    revert Hk2; apply (mapM_stuck _ _ x Hx).
    intros y; unfold visit.
    destruct x as [t' a' c' | |]; try discriminate.
    cbn [is_node]; apply IH; exact Hbx.
Qed.

(** X10. The walker changes nothing but the children of nowiki
    elements: an element with another tag comes back with its tag, its
    attributes and as many children as it had, every text run in its
    place and every child element in its place with its own tag and
    attributes. *)
Theorem walker_keeps_other_elements_in_shape
        (fuel : nat) (t : tag) (a : attributes) (children : list child) (r : child) :
  is_nowiki t = false ->
  __call__ K fuel (Element t a children) = Ok r ->
  exists children',
    r = Element t a children'
    /\ List.length children' = List.length children
    /\ (forall i c, nth_error children i = Some c -> is_node c = false ->
                    nth_error children' i = Some c)
    /\ (forall i t' a' c, nth_error children i = Some (Element t' a' c) ->
                          exists c', nth_error children' i = Some (Element t' a' c')).
Proof.
  unfold __call__; intros Ht H.
  apply recurse_Ok_inv in H as (f & t0 & a0 & c0 & k1 & k2 & _ & Heq & Hk1 & Hk2 & ->).
  inversion Heq; subst t0 a0 c0; clear Heq.
  rewrite Ht in Hk1; inversion Hk1; subst k1; clear Hk1.
  exists k2; split; [reflexivity | split; [| split]].
  - symmetry; exact (Forall2_length Hk2).
  - intros i c Hc Hleaf.
    destruct (Forall2_nth_error _ _ _ Hk2 i c Hc) as (y & Hy & Hv).
    apply (visit_leaf K f c y Hleaf) in Hv; subst y; exact Hy.
  - intros i t' a' c Hc.
    destruct (Forall2_nth_error _ _ _ Hk2 i _ Hc) as (y & Hy & Hv).
    unfold visit in Hv; cbn [is_node] in Hv.
    destruct (recurse_keeps_root K f _ y Hv) as (t1 & a1 & c1 & c1' & Heq & ->).
    inversion Heq; subst; exists c1'; exact Hy.
Qed.

(** X11. White space after the directive is dropped before the line is
    read, and only the first item of the directive sequence is read:
    two placeholders whose directive lines differ in trailing white
    space only have the same outcome, diagnostic included, whatever
    items follow the line in either sequence. *)
Theorem trailing_white_space_is_ignored
        (marker content : child) (raw ws : string) (items items' : list string) :
  all_space ws = true ->
  handle_nowiki K [marker; Seq ((raw ++ ws) :: items); content]
  = handle_nowiki K [marker; Seq (raw :: items'); content].
Proof.
  intros Hws; unfold handle_nowiki, directive_line.
  rewrite (rstrip_trailing raw ws Hws); reflexivity.
Qed.

End Shape.

Lemma malformed_placeholder_stops_the_expansion_witness :
  blocked
    (Element page []
       [Element p [] [Text "before"];
        Element div [] [Element nowiki [] [Seq ["#!csv"]; Text "a;b"]]])
  = true
  /\ forall fuel r,
      __call__ Stub.K fuel
               (Element page []
                  [Element p [] [Text "before"];
                   Element div [] [Element nowiki [] [Seq ["#!csv"]; Text "a;b"]]])
      <> Ok r.
Proof.
  split; [reflexivity |].
  apply (malformed_placeholder_stops_the_expansion Stub.K).
  reflexivity.
Defined.

Lemma walker_keeps_other_elements_in_shape_witness :
  exists children',
    Element page [("lang", "en")]
      [Text "intro"; Element nowiki [] [build_dom_table [] ["a"] "moin-csv-table moin-sortable"]]
    = Element page [("lang", "en")] children'
    /\ List.length children' = 2
    /\ (forall i c, nth_error [Text "intro"; placeholder "#!csv" "a"] i = Some c ->
                    is_node c = false -> nth_error children' i = Some c)
    /\ (forall i t' a' c,
           nth_error [Text "intro"; placeholder "#!csv" "a"] i = Some (Element t' a' c) ->
           exists c', nth_error children' i = Some (Element t' a' c')).
Proof.
  apply (walker_keeps_other_elements_in_shape
           Stub.K 6 page [("lang", "en")] [Text "intro"; placeholder "#!csv" "a"]);
    reflexivity.
Defined.

Lemma trailing_white_space_is_ignored_witness :
  handle_nowiki Stub.K [Text "3"; Seq ["#!python" ++ "   "; "left over"]; Text "x = 1"]
  = handle_nowiki Stub.K [Text "3"; Seq ["#!python"]; Text "x = 1"].
Proof.
  apply (trailing_white_space_is_ignored Stub.K (Text "3") (Text "x = 1") "#!python" "   "
           ["left over"] []).
  reflexivity.
Defined.

(** ** Lexers and diagnostics *)

Lemma of_option_Ok {A : Type} (e : exn) (o : option A) (x : A) :
  of_option e o = Ok x -> o = Some x.
Proof.
  destruct o; simpl; intros H; inversion H; reflexivity.
Qed.

Section Lexers.

Variable K : Collaborators.

(** X12. For a highlight directive the lookup by name comes first and
    the lookup by mimetype is the second try: a hint the registry knows
    as a name is rendered by that lexer whatever the mimetype table
    says, a hint known as a mimetype only is rendered by the lexer of
    the mimetype, and in both cases the placeholder receives the one
    highlighted block and no diagnostic. *)
Theorem highlight_looks_up_name_then_mimetype
        (marker : child) (raw : string) (hint : option string) (body : string)
        (lx : lexer K) :
  legacy_alias (parse_directive (Py.rstrip raw)) = (Some "highlight", hint) ->
  (get_lexer_by_name K hint = Some lx ->
   handle_nowiki K [marker; Seq [raw]; Text body] = Ok [highlight_block K body lx])
  /\ (get_lexer_by_name K hint = None -> get_lexer_for_mimetype K hint = Some lx ->
      handle_nowiki K [marker; Seq [raw]; Text body] = Ok [highlight_block K body lx]).
Proof.
  intros Halias; split.
  - intros Hname.
    rewrite (handle_nowiki_highlight_resolved K marker (Text body) raw hint lx Halias);
      [reflexivity | left; exact Hname].
  - intros Hname Hmime.
    rewrite (handle_nowiki_highlight_resolved K marker (Text body) raw hint lx Halias);
      [reflexivity | right; split; assumption].
Qed.

(** X13. The fallback is only as safe as the [text] lexer: when the
    registry does not have it, a highlight directive with an unknown
    hint and a placeholder without a directive both make the expansion
    raise ClassNotFound, the lookups of lines 70 and 140 being
    unguarded. *)
Theorem fallback_raises_without_text_lexer
        (fuel : nat) (a : attributes) (marker content : child) (raw : string) :
  get_lexer_by_name K (Some "text") = None ->
  (forall hint,
      legacy_alias (parse_directive (Py.rstrip raw)) = (Some "highlight", hint) ->
      get_lexer_by_name K hint = None -> get_lexer_for_mimetype K hint = None ->
      __call__ K (S fuel) (Element nowiki a [marker; Seq [raw]; content])
      = Raised ClassNotFound)
  /\ (parse_directive (Py.rstrip raw) = (None, None) ->
      __call__ K (S fuel) (Element nowiki a [marker; Seq [raw]; content])
      = Raised ClassNotFound).
Proof.
  intros Htext; split.
  - intros hint Halias Hname Hmime; apply call_raises.
    rewrite (handle_nowiki_highlight_unresolved K marker content raw hint
               Halias Hname Hmime).
    rewrite Htext; reflexivity.
  - intros Hparse; apply call_raises.
    rewrite (handle_nowiki_absent K marker content raw Hparse).
    unfold plain_text_fallback; rewrite Htext; reflexivity.
Qed.

Lemma resolve_lexer_diagnostic (line : string) (name args : option string)
      (elem : list child) (lx : option (lexer K)) :
  resolve_lexer K [] line name args = Ok (elem, lx) ->
  (elem = [])
  \/ (exists l, lx = Some l /\ elem = [admonition K line]
                /\ get_lexer_by_name K (Some "text") = Some l).
Proof.
  unfold resolve_lexer.
  destruct (name_in name ["highlight"]).
  - destruct (get_lexer_by_name K args) as [l |].
    + intros H; inversion H; auto.
    + destruct (get_lexer_for_mimetype K args) as [l |].
      * intros H; inversion H; auto.
      * destruct (get_lexer_by_name K (Some "text")) as [l |]; simpl;
          intros H; inversion H; subst.
        right; exists l; auto.
  - intros H; inversion H; auto.
Qed.

Lemma as_text_Ok (c : child) (text : string) : as_text c = Ok text -> c = Text text.
Proof.
  destruct c; simpl; intros H; inversion H; reflexivity.
Qed.

(** X15. What [handle_nowiki] leaves in a placeholder is, case by case:
    one highlighted block; one table; one page around the output of
    the wiki or creole converter; the output of the rst, docbook,
    markdown or mediawiki converter as it is; or the diagnostic that
    quotes the placeholder's own directive line followed by the
    placeholder's body as rendered by the [text] lexer.  The handler
    builds the diagnostic in the last case only: it never leaves it
    alone in the placeholder and never without the plain-text block
    after it.  Whenever the handler returns, the placeholder had its
    three children and a text body. *)
Theorem diagnostic_comes_with_the_plain_text_block (children out : list child) :
  handle_nowiki K children = Ok out ->
  exists marker directive line body,
    children = [marker; directive; Text body]
    /\ directive_line directive = Ok line
    /\ ((exists lx, out = [highlight_block K body lx])
        \/ (exists sep,
               out = [build_dom_table
                        (map (Py.split sep) (tl (Py.split Py.newline body)))
                        (Py.split sep (nth 0 (Py.split Py.newline body) EmptyString))
                        "moin-csv-table moin-sortable"])
        \/ (exists arguments sub,
               moinwiki_parse_block K (normalize_split_text K body) arguments = Some sub
               /\ out = [Element page [] [sub]])
        \/ (exists args sub,
               creole_parse_block K (normalize_split_text K body) args = Some sub
               /\ out = [Element page [] [sub]])
        \/ (exists pg,
               rst_converter K body "text/x-rst;charset=utf-8" = Some pg /\ out = [pg])
        \/ (exists pg,
               docbook_converter K body "application/docbook+xml;charset=utf-8" = Some pg
               /\ out = [pg])
        \/ (exists pg,
               markdown_converter K body "text/x-markdown;charset=utf-8" = Some pg
               /\ out = [pg])
        \/ (exists args pg, mediawiki_converter K body args = Some pg /\ out = [pg])
        \/ (exists lx,
               get_lexer_by_name K (Some "text") = Some lx
               /\ out = [admonition K line; highlight_block K body lx])).
Proof.
  unfold handle_nowiki.
  destruct children as [| m [| d [| c [| ? ?]]]]; try discriminate.
  intros H.
  apply bind_Ok in H as (line & Hline & H).
  destruct (parse_directive line) as [n0 a0].
  destruct (legacy_alias (n0, a0)) as [n args].
  apply bind_Ok in H as ([elem lx] & Hr & H).
  pose proof (resolve_lexer_cases K line n args elem lx Hr) as Hcases.
  apply resolve_lexer_diagnostic in Hr.
  destruct Hcases as [(-> & -> & _) | (l & -> & _ & _)].
  - destruct (name_in n ["csv"; "text/csv"]).
    { apply bind_Ok in H as (text & Htext & H); apply as_text_Ok in Htext; subst c.
      inversion H; subst out; clear H.
      exists m, d, line, text; repeat split; [exact Hline |].
      right; left; eexists; reflexivity. }
    destruct (name_in n ["wiki"; "text/x.moin.wiki"]).
    { apply bind_Ok in H as (text & Htext & H); apply as_text_Ok in Htext; subst c.
      apply bind_Ok in H as (sub & Hsub & H); apply of_option_Ok in Hsub.
      inversion H; subst out; clear H.
      exists m, d, line, text; repeat split; [exact Hline |].
      right; right; left; do 2 eexists; split; [exact Hsub | reflexivity]. }
    destruct (name_in n ["creole"; "text/x.moin.creole"]).
    { apply bind_Ok in H as (text & Htext & H); apply as_text_Ok in Htext; subst c.
      apply bind_Ok in H as (sub & Hsub & H); apply of_option_Ok in Hsub.
      inversion H; subst out; clear H.
      exists m, d, line, text; repeat split; [exact Hline |].
      do 3 right; left; do 2 eexists; split; [exact Hsub | reflexivity]. }
    destruct (name_in n ["rst"; "text/x-rst"]).
    { apply bind_Ok in H as (text & Htext & H); apply as_text_Ok in Htext; subst c.
      apply bind_Ok in H as (pg & Hpg & H); apply of_option_Ok in Hpg.
      inversion H; subst out; clear H.
      exists m, d, line, text; repeat split; [exact Hline |].
      do 4 right; left; eexists; split; [exact Hpg | reflexivity]. }
    destruct (name_in n ["docbook"; "application/docbook+xml"]).
    { apply bind_Ok in H as (text & Htext & H); apply as_text_Ok in Htext; subst c.
      apply bind_Ok in H as (pg & Hpg & H); apply of_option_Ok in Hpg.
      inversion H; subst out; clear H.
      exists m, d, line, text; repeat split; [exact Hline |].
      do 5 right; left; eexists; split; [exact Hpg | reflexivity]. }
    destruct (name_in n ["markdown"; "text/x-markdown"]).
    { apply bind_Ok in H as (text & Htext & H); apply as_text_Ok in Htext; subst c.
      apply bind_Ok in H as (pg & Hpg & H); apply of_option_Ok in Hpg.
      inversion H; subst out; clear H.
      exists m, d, line, text; repeat split; [exact Hline |].
      do 6 right; left; eexists; split; [exact Hpg | reflexivity]. }
    destruct (name_in n ["mediawiki"; "text/x-mediawiki"]).
    { apply bind_Ok in H as (text & Htext & H); apply as_text_Ok in Htext; subst c.
      apply bind_Ok in H as (pg & Hpg & H); apply of_option_Ok in Hpg.
      inversion H; subst out; clear H.
      exists m, d, line, text; repeat split; [exact Hline |].
      do 7 right; left; do 2 eexists; split; [exact Hpg | reflexivity]. }
    unfold plain_text_fallback, invalid_args in H.
    apply bind_Ok in H as (tx & Htx & H); apply of_option_Ok in Htx.
    apply bind_Ok in H as (text & Htext & H); apply as_text_Ok in Htext; subst c.
    inversion H; subst out; clear H.
    exists m, d, line, text; repeat split; [exact Hline |].
    do 8 right; eexists; split; [exact Htx | reflexivity].
  - apply bind_Ok in H as (text & Htext & H); apply as_text_Ok in Htext; subst c.
    inversion H; subst out; clear H.
    exists m, d, line, text; repeat split; [exact Hline |].
    destruct Hr as [-> | (l' & Hl & -> & Hget)].
    + left; eexists; reflexivity.
    + inversion Hl; subst l'.
      do 8 right; eexists; split; [exact Hget | reflexivity].
Qed.

End Lexers.

Lemma highlight_looks_up_name_then_mimetype_witness :
  handle_nowiki Stub.K [Text "3"; Seq ["#!highlight py"]; Text "x = 1"]
  = Ok [highlight_block Stub.K "x = 1" "python"]
  /\ handle_nowiki Stub.K [Text "3"; Seq ["#!highlight text/x-java"]; Text "int x;"]
     = Ok [highlight_block Stub.K "int x;" "java"].
Proof.
  split.
  - apply (proj1 (highlight_looks_up_name_then_mimetype
                    Stub.K (Text "3") "#!highlight py" (Some "py") "x = 1" "python"
                    eq_refl)).
    reflexivity.
  - apply (proj2 (highlight_looks_up_name_then_mimetype
                    Stub.K (Text "3") "#!highlight text/x-java" (Some "text/x-java")
                    "int x;" "java" eq_refl));
      reflexivity.
Defined.

Lemma fallback_raises_without_text_lexer_witness :
  __call__ Stub.bare 1 (placeholder "#!highlight python" "x = 1") = Raised ClassNotFound
  /\ __call__ Stub.bare 1 (placeholder "plain" "x = 1") = Raised ClassNotFound.
Proof.
  split.
  - apply (proj1 (fallback_raises_without_text_lexer
                    Stub.bare 0 [] (Text "3") (Text "x = 1") "#!highlight python" eq_refl)
             (Some "python"));
      reflexivity.
  - apply (proj2 (fallback_raises_without_text_lexer
                    Stub.bare 0 [] (Text "3") (Text "x = 1") "plain" eq_refl)).
    reflexivity.
Defined.

Lemma diagnostic_comes_with_the_plain_text_block_witness :
  handle_nowiki Stub.K [Text "3"; Seq ["#!bogus"]; Text "hello"]
  = Ok [admonition Stub.K "#!bogus"; highlight_block Stub.K "hello" "text"]
  /\ exists marker directive line body,
      [Text "3"; Seq ["#!bogus"]; Text "hello"] = [marker; directive; Text body]
      /\ directive_line directive = Ok line
      /\ ((exists lx, [admonition Stub.K "#!bogus"; highlight_block Stub.K "hello" "text"]
                      = [highlight_block Stub.K body lx])
          \/ (exists sep,
                 [admonition Stub.K "#!bogus"; highlight_block Stub.K "hello" "text"]
                 = [build_dom_table
                      (map (Py.split sep) (tl (Py.split Py.newline body)))
                      (Py.split sep (nth 0 (Py.split Py.newline body) EmptyString))
                      "moin-csv-table moin-sortable"])
          \/ (exists arguments sub,
                 moinwiki_parse_block Stub.K (normalize_split_text Stub.K body) arguments
                 = Some sub
                 /\ [admonition Stub.K "#!bogus"; highlight_block Stub.K "hello" "text"]
                    = [Element page [] [sub]])
          \/ (exists args sub,
                 creole_parse_block Stub.K (normalize_split_text Stub.K body) args = Some sub
                 /\ [admonition Stub.K "#!bogus"; highlight_block Stub.K "hello" "text"]
                    = [Element page [] [sub]])
          \/ (exists pg,
                 rst_converter Stub.K body "text/x-rst;charset=utf-8" = Some pg
                 /\ [admonition Stub.K "#!bogus"; highlight_block Stub.K "hello" "text"] = [pg])
          \/ (exists pg,
                 docbook_converter Stub.K body "application/docbook+xml;charset=utf-8"
                 = Some pg
                 /\ [admonition Stub.K "#!bogus"; highlight_block Stub.K "hello" "text"] = [pg])
          \/ (exists pg,
                 markdown_converter Stub.K body "text/x-markdown;charset=utf-8" = Some pg
                 /\ [admonition Stub.K "#!bogus"; highlight_block Stub.K "hello" "text"] = [pg])
          \/ (exists args pg,
                 mediawiki_converter Stub.K body args = Some pg
                 /\ [admonition Stub.K "#!bogus"; highlight_block Stub.K "hello" "text"] = [pg])
          \/ (exists lx,
                 get_lexer_by_name Stub.K (Some "text") = Some lx
                 /\ [admonition Stub.K "#!bogus"; highlight_block Stub.K "hello" "text"]
                    = [admonition Stub.K line; highlight_block Stub.K body lx])).
Proof.
  split; [reflexivity |].
  apply (diagnostic_comes_with_the_plain_text_block
           Stub.K [Text "3"; Seq ["#!bogus"]; Text "hello"]).
  reflexivity.
Defined.

(** ** Arguments and legacy names *)

Lemma append_assoc (s t u : string) : (s ++ t) ++ u = s ++ t ++ u.
Proof.
  induction s as [| c s IH]; [reflexivity |].
  change ((String c s ++ t) ++ u) with (String c ((s ++ t) ++ u)).
  rewrite IH; reflexivity.
Qed.

(** What [rstrip] returns does not end in white space. *)
Lemma rstrip_last (s : string) :
  forall x c, Py.rstrip s = x ++ String c EmptyString -> Py.isspace c = false.
Proof.
  induction s as [| a s IH]; intros x c H.
  - destruct x; discriminate.
  - cbn [Py.rstrip] in H.
    destruct (Py.rstrip s) as [| a0 s0] eqn:E.
    + destruct (Py.isspace a) eqn:Ha; [destruct x; discriminate |].
      destruct x as [| b x']; [inversion H; subst; exact Ha |].
      inversion H as [[Hb Hrest]]; destruct x'; discriminate.
    + destruct x as [| b x']; [inversion H |].
      inversion H as [[Hb Hrest]].
      exact (IH x' c Hrest).
Qed.

Lemma replace_char_removes (old new : ascii) (s : string) :
  Ascii.eqb new old = false -> occurrences old (Py.replace_char old new s) = 0.
Proof.
  intros Hnew; induction s as [| c s IH]; [reflexivity |].
  cbn [Py.replace_char occurrences]; rewrite IH.
  destruct (Ascii.eqb c old) eqn:Hc; [rewrite Hnew | rewrite Hc]; reflexivity.
Qed.

Lemma parse_directive_args_need_name (line args : string) :
  parse_directive line <> (None, Some args).
Proof.
  unfold parse_directive.
  destruct (Py.startswith "#!" line && (2 <? String.length line)%nat); discriminate.
Qed.

(** X14. Arguments that are present are never empty, the line having
    been right-trimmed before it is split.  So the csv separator is the
    argument string itself whenever there is one, the default [;]
    serving only a directive without arguments, and the wiki handler
    sets the class keyword for every directive with arguments, to a
    value without slash. *)
Theorem present_arguments_are_never_empty
        (raw : string) (name : option string) (args : string) :
  parse_directive (Py.rstrip raw) = (name, Some args) ->
  args <> EmptyString
  /\ Py.or_else (Some args) ";" = args
  /\ wiki_arguments (Some args) = [(class_, Py.replace_char "/" " " args)]
  /\ occurrences "/" (Py.replace_char "/" " " args) = 0.
Proof.
  intros H.
  assert (Hne : args <> EmptyString).
  { destruct name as [n |]; [| elim (parse_directive_args_need_name _ _ H)].
    apply parse_directive_rebuild in H as (Hline & _).
    intros ->.
    rewrite <- !append_assoc in Hline.
    rewrite append_empty in Hline.
    apply rstrip_last in Hline; discriminate. }
  destruct args as [| c r]; [congruence |].
  repeat split; [exact Hne | apply replace_char_removes; reflexivity].
Qed.

Lemma present_arguments_are_never_empty_witness :
  "blue/solid" <> EmptyString
  /\ Py.or_else (Some "blue/solid") ";" = "blue/solid"
  /\ wiki_arguments (Some "blue/solid") = [(class_, Py.replace_char "/" " " "blue/solid")]
  /\ occurrences "/" (Py.replace_char "/" " " "blue/solid") = 0.
Proof.
  apply (present_arguments_are_never_empty "#!wiki blue/solid  " (Some "wiki")).
  reflexivity.
Defined.

(** X16. The legacy rewrite settles in one step: what it returns never
    carries a legacy name, so no legacy name reaches the dispatch and
    rewriting again changes nothing; a directive whose name is not a
    legacy name passes through as it is, arguments included. *)
Theorem legacy_alias_settles (d : option string * option string) :
  name_in (fst (legacy_alias d)) legacy_names = false
  /\ legacy_alias (legacy_alias d) = legacy_alias d
  /\ (name_in (fst d) legacy_names = false -> legacy_alias d = d).
Proof.
  destruct d as [name args]; unfold legacy_alias; cbn [fst].
  destruct (name_in name legacy_names) eqn:Hn.
  - repeat split; discriminate.
  - cbn [fst]; rewrite Hn; repeat split; exact Hn.
Qed.

Lemma legacy_alias_settles_witness :
  name_in (fst (legacy_alias (Some "wiki", Some "red"))) legacy_names = false
  /\ legacy_alias (legacy_alias (Some "wiki", Some "red"))
     = legacy_alias (Some "wiki", Some "red")
  /\ legacy_alias (Some "wiki", Some "red") = (Some "wiki", Some "red").
Proof.
  destruct (legacy_alias_settles (Some "wiki", Some "red")) as (H1 & H2 & H3).
  split; [exact H1 | split; [exact H2 | apply H3; reflexivity]].
Defined.

(** ** When the expansion returns *)

Lemma mapM_returns {A B : Type} (f : A -> outcome B) (l : list A) :
  (forall x, In x l -> exists y, f x = Ok y) -> exists out, mapM f l = Ok out.
Proof.
  induction l as [| x rest IH]; intros H; [exists []; reflexivity |].
  destruct (H x (or_introl eq_refl)) as (y & Hy).
  destruct IH as (ys & Hys); [intros z Hz; apply H; right; exact Hz |].
  exists (y :: ys); simpl; rewrite Hy; simpl; rewrite Hys; reflexivity.
Qed.

Section Returns.

Variable K : Collaborators.
Variable bound : nat.
Hypothesis HK : dependable K bound.

Lemma quiet_weaken (b b' : nat) (c : child) : b <= b' -> quiet b c -> quiet b' c.
Proof.
  intros Hb [Hc Hh]; split; [exact Hc | lia].
Qed.

Lemma visit_quiet (fuel b : nat) (c : child) :
  b <= fuel -> quiet b c -> visit K fuel c = Ok c.
Proof.
  intros Hb [Hc Hh]; unfold visit.
  destruct (is_node c) eqn:Hn; [| reflexivity].
  apply recurse_fixed; [exact Hn | exact Hc | lia].
Qed.

Lemma quiet_highlight_block (text : string) (lx : lexer K) :
  quiet (S bound) (highlight_block K text lx).
Proof.
  destruct HK as (_ & Hhl & _).
  specialize (Hhl text lx); rewrite Forall_forall in Hhl.
  unfold highlight_block; split.
  - cbn [count_nowiki is_nowiki]; rewrite list_sum_map_zero; [reflexivity |].
    intros x Hx; exact (proj1 (Hhl x Hx)).
  - cbn [height]; apply le_n_S, list_max_below; intros n Hn.
    apply in_map_iff in Hn as (x & <- & Hx); exact (proj2 (Hhl x Hx)).
Qed.

Lemma quiet_admonition (line : string) : quiet 2 (admonition K line).
Proof.
  split; [reflexivity | simpl; lia].
Qed.

Lemma quiet_page (sub : child) : quiet bound sub -> quiet (S bound) (Element page [] [sub]).
Proof.
  intros [Hc Hh]; split.
  - change (count_nowiki (Element page [] [sub])) with (count_nowiki sub + 0).
    rewrite Hc; reflexivity.
  - change (height (Element page [] [sub])) with (S (Nat.max (height sub) 0)); lia.
Qed.

Lemma handle_nowiki_quiet (marker : child) (raw : string) (items : list string)
      (body : string) :
  exists out,
    handle_nowiki K [marker; Seq (raw :: items); Text body] = Ok out
    /\ Forall (quiet (bound + 4)) out.
Proof.
  destruct HK as (Htext & _ & Hwiki & Hcreole & Hrst & Hdocbook & Hmarkdown & Hmediawiki).
  assert (Hblock : forall text lx, quiet (bound + 4) (highlight_block K text lx))
    by (intros; apply (quiet_weaken (S bound)); [lia | apply quiet_highlight_block]).
  assert (Hdiag : forall line, quiet (bound + 4) (admonition K line))
    by (intros; apply (quiet_weaken 2); [lia | apply quiet_admonition]).
  assert (Hpage : forall sub, quiet bound sub -> quiet (bound + 4) (Element page [] [sub]))
    by (intros; apply (quiet_weaken (S bound)); [lia | apply quiet_page; assumption]).
  assert (Hpg : forall pg, quiet bound pg -> quiet (bound + 4) pg)
    by (intros; apply (quiet_weaken bound); [lia | assumption]).
  unfold handle_nowiki, directive_line; cbn [bind].
  destruct (parse_directive (Py.rstrip raw)) as [n0 a0].
  destruct (legacy_alias (n0, a0)) as [n args].
  unfold resolve_lexer, plain_text_fallback, invalid_args.
  destruct (get_lexer_by_name K (Some "text")) as [tx |] eqn:Etext; [| congruence].
  destruct (name_in n ["highlight"]).
  - destruct (get_lexer_by_name K args);
      [cbn; eexists; split; [reflexivity | auto] |].
    destruct (get_lexer_for_mimetype K args);
      cbn; eexists; split; try reflexivity; auto.
  - cbn [bind].
    repeat match goal with
           | |- context [if ?b then _ else _] => destruct b
           end; cbn [bind as_text of_option app].
    + eexists; split; [reflexivity |].
      constructor; [| constructor].
      split; [apply table_no_nowiki |].
      pose proof (table_height
                    (map (Py.split (Py.or_else args ";")) (tl (Py.split Py.newline body)))
                    (Py.split (Py.or_else args ";")
                              (nth 0 (Py.split Py.newline body) EmptyString))
                    "moin-csv-table moin-sortable"); lia.
    + destruct (Hwiki (normalize_split_text K body) (wiki_arguments args))
        as (sub & -> & Hq).
      cbn; eexists; split; [reflexivity | auto].
    + destruct (Hcreole (normalize_split_text K body) args) as (sub & -> & Hq).
      cbn; eexists; split; [reflexivity | auto].
    + destruct (Hrst body "text/x-rst;charset=utf-8") as (pg & -> & Hq).
      cbn; eexists; split; [reflexivity | auto].
    + destruct (Hdocbook body "application/docbook+xml;charset=utf-8") as (pg & -> & Hq).
      cbn; eexists; split; [reflexivity | auto].
    + destruct (Hmarkdown body "text/x-markdown;charset=utf-8") as (pg & -> & Hq).
      cbn; eexists; split; [reflexivity | auto].
    + destruct (Hmediawiki body args) as (pg & -> & Hq).
      cbn; eexists; split; [reflexivity | auto].
    + eexists; split; [reflexivity | auto].
Qed.

Lemma recurse_returns (fuel : nat) :
  forall tree, is_node tree = true -> well_formed tree = true ->
               height tree + (bound + 4) <= fuel ->
               exists r, recurse K fuel tree = Ok r.
Proof.
  induction fuel as [| fuel IH]; intros tree Hnode Hwf Hfuel.
  - destruct tree; simpl in *; try discriminate; lia.
  - destruct tree as [t a children | |]; try discriminate.
    rewrite recurse_step.
    cbn [well_formed] in Hwf; cbn [height] in Hfuel.
    destruct (is_nowiki t).
    + destruct children as [| m [| [| | [| raw items]] [| [| body |] [| ? ?]]]];
        try discriminate.
      destruct (handle_nowiki_quiet m raw items body) as (out & -> & Hout).
      cbn [bind]; rewrite mapM_fixed; [eexists; reflexivity |].
      intros x Hx; rewrite Forall_forall in Hout.
      apply (visit_quiet fuel (bound + 4)); [lia | exact (Hout x Hx)].
    + cbn [bind].
      destruct (mapM_returns (visit K fuel) children) as (k2 & ->);
        [| eexists; reflexivity].
      intros x Hx; unfold visit.
      destruct (is_node x) eqn:Hnx; [| eexists; reflexivity].
      apply IH; [exact Hnx | |].
      * rewrite forallb_forall in Hwf; exact (Hwf x Hx).
      * assert (height x <= list_max (map height children))
          by (apply list_max_bound, in_map, Hx).
        lia.
Qed.

(** X17. With collaborators that do not fail and emit no nowiki
    element, the expansion of a tree whose placeholders are well formed
    returns, at a recursion depth of the height of the tree plus the
    depth of what the collaborators emit plus four, and what it returns
    has every nowiki element expanded. *)
Theorem expansion_returns_with_dependable_collaborators (tree : child) :
  is_node tree = true ->
  well_formed tree = true ->
  exists r,
    __call__ K (height tree + bound + 4) tree = Ok r /\ expanded r = true.
Proof.
  intros Hnode Hwf.
  destruct (recurse_returns (height tree + bound + 4) tree Hnode Hwf) as (r & Hr); [lia |].
  exists r; split; [exact Hr | exact (recurse_expanded K _ _ _ Hr)].
Qed.

End Returns.

Lemma flat_is_dependable : dependable Stub.flat 2.
Proof.
  assert (Hp : forall text, quiet 2 (Stub.paragraph text))
    by (intros; split; [reflexivity | simpl; lia]).
  unfold dependable; repeat split.
  - discriminate.
  - intros text lx; simpl; repeat constructor.
  - intros lines arguments; eexists; split; [reflexivity | apply Hp].
  - intros lines args; eexists; split; [reflexivity | apply Hp].
  - intros text contenttype; eexists; split; [reflexivity | apply Hp].
  - intros text contenttype; eexists; split; [reflexivity | apply Hp].
  - intros text contenttype; eexists; split; [reflexivity | apply Hp].
  - intros text args; eexists; split; [reflexivity | apply Hp].
Defined.

Lemma expansion_returns_with_dependable_collaborators_witness :
  exists r,
    __call__ Stub.flat 8
             (Element page []
                [placeholder "#!wiki" "some text"; placeholder "#!nothing" "x"])
    = Ok r
    /\ expanded r = true.
Proof.
  apply (expansion_returns_with_dependable_collaborators Stub.flat 2 flat_is_dependable
           (Element page []
              [placeholder "#!wiki" "some text"; placeholder "#!nothing" "x"]));
    reflexivity.
Defined.

(** ** Nested placeholders *)



